(** * FastAPI MCP server: protocol and dispatch core

    A shallow embedding of [src/main.py]: the JSON-RPC models
    ([MCPRequest], [MCPResponse]), the tool registry, [MCPServer.call_tool],
    [MCPServer.handle_request], the HTTP route [POST /tools/call], the
    WebSocket receive loop and the [ConnectionManager].

    Conventions of the embedding.
    - Python values that reach the server through [json.loads] are terms of
      [value]; text is a [string] of 8-bit characters, one per code point.
      Case mapping, whitespace and pattern matching are embedded for ASCII
      text, where they are exact; what is proved about them is stated for
      ASCII text.
    - A Python computation that may raise is a term of [outcome]: [Ok v] is a
      normal return, [Raised e] an exception propagating to the caller;
      [try_except] is the [try: ... except Exception] block.
    - Built-in operators follow CPython 3.12.  Exhaustion of memory, stack
      or time is outside the model.
    - What the interpreter delegates to C libraries or to other packages
      (printing of floats, [pow] of libm, message digests, the text of
      pydantic's validation errors, the JSON encoder) is a field of
      [Runtime]; what a call observes of the outside world (clock, files,
      entropy, network) is a field of [World]; what the channel does with a
      message is a field of the frame that is being handled. *)

From Stdlib Require Import ZArith List String Ascii Bool Lia SpecFloat.
From Stdlib Require DecimalString.
Import ListNotations.

Set Warnings "-register-all".

Open Scope string_scope.
Open Scope Z_scope.

(** ** Computations that may raise *)

Inductive exc_class : Type :=
| ValueError | TypeError | AttributeError | KeyError
| ZeroDivisionError | OverflowError | ValidationError | JSONDecodeError
| FileNotFoundError | OSError | WebSocketDisconnect
| OtherException (name : string).

(** An exception object: its class and [str(e)]. *)
Record pyexc : Type := Exc { exc_cls : exc_class; exc_text : string }.

Inductive outcome (A : Type) : Type :=
| Ok (a : A)
| Raised (e : pyexc).
Arguments Ok {A} a.
Arguments Raised {A} e.

Definition bind {A B} (m : outcome A) (k : A -> outcome B) : outcome B :=
  match m with
  | Ok a => k a
  | Raised e => Raised e
  end.

Definition raise {A} (c : exc_class) (text : string) : outcome A :=
  Raised (Exc c text).

(** [try: body / except Exception as e: handler e]. *)
Definition try_except {A} (body : outcome A) (handler : pyexc -> outcome A)
  : outcome A :=
  match body with
  | Ok a => Ok a
  | Raised e => handler e
  end.

Declare Scope py_scope.
Delimit Scope py_scope with py.
Notation "x <- m ;; k" := (bind m (fun x => k))
  (at level 61, m at next level, right associativity) : py_scope.
Open Scope py_scope.

(** ** Values *)

Inductive value : Type :=
| VNone
| VBool (b : bool)
| VInt (n : Z)
| VFloat (f : spec_float)
| VStr (s : string)
| VList (l : list value)
| VDict (d : list (string * value)).

(** What a tool may return: a JSON-shaped value, or the complex number that
    [**] yields for a negative base and a fractional exponent. *)
Inductive tool_value : Type :=
| Plain (v : value)
| Complex (re im : spec_float).

Definition type_name (v : value) : string :=
  match v with
  | VNone => "NoneType"
  | VBool _ => "bool"
  | VInt _ => "int"
  | VFloat _ => "float"
  | VStr _ => "str"
  | VList _ => "list"
  | VDict _ => "dict"
  end.

(** ** Text *)

Definition dquote : string := String "034"%char "".
Definition squote : string := "'".

Definition nat_of_char (c : ascii) : nat := nat_of_ascii c.

Definition char_between (lo hi : nat) (c : ascii) : bool :=
  (Nat.leb lo (nat_of_char c) && Nat.leb (nat_of_char c) hi)%bool.

Definition is_upper (c : ascii) : bool := char_between 65 90 c.
Definition is_lower (c : ascii) : bool := char_between 97 122 c.
Definition is_digit (c : ascii) : bool := char_between 48 57 c.

(** [str.isspace] on one code point below 256. *)
Definition is_space (c : ascii) : bool :=
  (char_between 9 13 c || char_between 28 32 c
   || Nat.eqb (nat_of_char c) 133 || Nat.eqb (nat_of_char c) 160)%bool.

Definition char_lower (c : ascii) : ascii :=
  if is_upper c then ascii_of_nat (nat_of_char c + 32) else c.
Definition char_upper (c : ascii) : ascii :=
  if is_lower c then ascii_of_nat (nat_of_char c - 32) else c.

Fixpoint string_map (f : ascii -> ascii) (s : string) : string :=
  match s with
  | EmptyString => EmptyString
  | String c s' => String (f c) (string_map f s')
  end.

(** [s.upper()] and [s.lower()], exact on ASCII text. *)
Definition str_upper : string -> string := string_map char_upper.
Definition str_lower : string -> string := string_map char_lower.

Definition str_reverse (s : string) : string :=
  string_of_list_ascii (List.rev (list_ascii_of_string s)).

Definition str_len (s : string) : Z := Z.of_nat (String.length s).

Fixpoint str_repeat (n : nat) (s : string) : string :=
  match n with
  | O => ""
  | S n' => s ++ str_repeat n' s
  end.

Fixpoint list_repeat {A} (n : nat) (l : list A) : list A :=
  match n with
  | O => []
  | S n' => l ++ list_repeat n' l
  end.

Fixpoint str_contains (c : ascii) (s : string) : bool :=
  match s with
  | EmptyString => false
  | String d s' => (Ascii.eqb c d || str_contains c s')%bool
  end.

Fixpoint join (sep : string) (parts : list string) : string :=
  match parts with
  | [] => ""
  | [p] => p
  | p :: rest => p ++ sep ++ join sep rest
  end.

(** Decimal text of an integer, as [str(n)] prints it when it is allowed to. *)
Definition Z_to_dec (n : Z) : string := DecimalString.NilZero.string_of_int (Z.to_int n).

(** Number of decimal digits of [n]. *)
Definition dec_digits (n : Z) : Z := str_len (Z_to_dec (Z.abs n)).

(** [sys.get_int_max_str_digits()]: the default limit on conversions between
    [int] and decimal text. *)
Definition int_max_str_digits : Z := 4300.

Definition hex_digit (n : nat) : ascii :=
  if Nat.ltb n 10 then ascii_of_nat (48 + n) else ascii_of_nat (87 + n).

Definition hex_escape (c : ascii) : string :=
  let n := nat_of_char c in
  String "\"%char (String "x"%char
    (String (hex_digit (Nat.div n 16)) (String (hex_digit (Nat.modulo n 16)) ""))).

(** [str.isprintable] on one code point below 256. *)
Definition is_printable (c : ascii) : bool :=
  (char_between 32 126 c || char_between 161 172 c || char_between 174 255 c)%bool.

Definition repr_char (quote : ascii) (c : ascii) : string :=
  if (Ascii.eqb c quote || Ascii.eqb c "\"%char)%bool then String "\"%char (String c "")
  else if Ascii.eqb c "009"%char then "\t"
  else if Ascii.eqb c "010"%char then "\n"
  else if Ascii.eqb c "013"%char then "\r"
  else if is_printable c then String c ""
  else hex_escape c.

Fixpoint repr_chars (quote : ascii) (s : string) : string :=
  match s with
  | EmptyString => ""
  | String c s' => repr_char quote c ++ repr_chars quote s'
  end.

(** [repr(s)] of a [str]: single quotes, unless the text holds a single
    quote and no double quote. *)
Definition str_repr (s : string) : string :=
  let quote :=
    if (str_contains "'"%char s && negb (str_contains "034"%char s))%bool
    then "034"%char else "'"%char in
  String quote (repr_chars quote s ++ String quote "").

(** ** Numbers *)

Definition float64_of (m e : Z) : spec_float := binary_normalize 53 1024 m e false.
Definition float_zero : spec_float := S754_zero false.
Definition float_one : spec_float := float64_of 1 0.
Definition float_half : spec_float := float64_of 1 (-1).

Definition f64_add := SFadd 53 1024.
Definition f64_sub := SFsub 53 1024.
Definition f64_mul := SFmul 53 1024.
Definition f64_div := SFdiv 53 1024.

(** The real number a Python number stands for: [RFin m e] is [m * 2^e]. *)
Inductive real : Type :=
| RNan
| RInf (negative : bool)
| RFin (m e : Z).

Definition real_of_float (f : spec_float) : real :=
  match f with
  | S754_zero _ => RFin 0 0
  | S754_infinity s => RInf s
  | S754_nan => RNan
  | S754_finite s m e => RFin (cond_Zopp s (Zpos m)) e
  end.

Definition fin_compare (m1 e1 m2 e2 : Z) : comparison :=
  let e := Z.min e1 e2 in
  Z.compare (m1 * 2 ^ (e1 - e)) (m2 * 2 ^ (e2 - e)).

(** Exact comparison; [None] when a NaN is involved. *)
Definition real_compare (x y : real) : option comparison :=
  match x, y with
  | RNan, _ | _, RNan => None
  | RInf s1, RInf s2 =>
      Some (match s1, s2 with
            | true, false => Lt
            | false, true => Gt
            | _, _ => Eq
            end)
  | RInf s, RFin _ _ => Some (if s then Lt else Gt)
  | RFin _ _, RInf s => Some (if s then Gt else Lt)
  | RFin m1 e1, RFin m2 e2 => Some (fin_compare m1 e1 m2 e2)
  end.

(** Truncation towards zero of a finite number. *)
Definition fin_trunc (m e : Z) : Z :=
  if 0 <=? e then m * 2 ^ e else Z.quot m (2 ^ (- e)).

Inductive number : Type :=
| NInt (n : Z)
| NFloat (f : spec_float).

(** [bool] is a subclass of [int]: [True] counts as 1 and [False] as 0. *)
Definition as_number (v : value) : option number :=
  match v with
  | VBool b => Some (NInt (if b then 1 else 0))
  | VInt n => Some (NInt n)
  | VFloat f => Some (NFloat f)
  | _ => None
  end.

Definition real_of_number (x : number) : real :=
  match x with
  | NInt n => RFin n 0
  | NFloat f => real_of_float f
  end.

Definition num_compare (x y : number) : option comparison :=
  real_compare (real_of_number x) (real_of_number y).

(** [float(n)] for an [int]: round to nearest even, or overflow. *)
Definition float_of_int (n : Z) : outcome spec_float :=
  match float64_of n 0 with
  | S754_infinity _ => raise OverflowError "int too large to convert to float"
  | f => Ok f
  end.

Definition to_float (x : number) : outcome spec_float :=
  match x with
  | NInt n => float_of_int n
  | NFloat f => Ok f
  end.

Definition float_is_zero (f : spec_float) : bool :=
  match f with S754_zero _ => true | _ => false end.
Definition float_is_nan (f : spec_float) : bool :=
  match f with S754_nan => true | _ => false end.
Definition float_is_inf (f : spec_float) : bool :=
  match f with S754_infinity _ => true | _ => false end.

Definition float_cmp (x y : spec_float) : option comparison :=
  real_compare (real_of_float x) (real_of_float y).
Definition float_eqb (x y : spec_float) : bool :=
  match float_cmp x y with Some Eq => true | _ => false end.
Definition float_ltb (x y : spec_float) : bool :=
  match float_cmp x y with Some Lt => true | _ => false end.
Definition float_gtb (x y : spec_float) : bool :=
  match float_cmp x y with Some Gt => true | _ => false end.

(** [x == floor(x)] and [fmod(fabs(x), 2.0) == 1.0] on a double. *)
Definition float_is_integer (f : spec_float) : bool :=
  match real_of_float f with
  | RFin m e => match fin_compare (fin_trunc m e) 0 m e with Eq => true | _ => false end
  | _ => false
  end.
Definition float_is_odd_integer (f : spec_float) : bool :=
  match real_of_float f with
  | RFin m e => (float_is_integer f && Z.odd (fin_trunc m e))%bool
  | _ => false
  end.

Definition float_sign (f : spec_float) : bool :=
  match f with
  | S754_zero s | S754_infinity s | S754_finite s _ _ => s
  | S754_nan => false
  end.

(** [int(x)] of a [float]. *)
Definition int_of_float (f : spec_float) : outcome Z :=
  match real_of_float f with
  | RNan => raise ValueError "cannot convert float NaN to integer"
  | RInf _ => raise OverflowError "cannot convert float infinity to integer"
  | RFin m e => Ok (fin_trunc m e)
  end.

(** [int(s)] of a [str], base 10.  The text is first brought to ASCII: a
    blank above the ASCII range becomes a space, and the text is cut, with a
    question mark, at any other character from 127 on; ASCII text is left
    as it is.  What is stripped then are the blanks of C ([Py_ISSPACE]), so
    the separators 28 to 31 are not. *)
Definition is_c_space (c : ascii) : bool :=
  (char_between 9 13 c || Nat.eqb (nat_of_char c) 32)%bool.

Fixpoint is_ascii (s : string) : bool :=
  match s with
  | EmptyString => true
  | String c s' => (Nat.ltb (nat_of_char c) 128 && is_ascii s')%bool
  end.

Fixpoint transform_decimal_and_space (s : string) : string :=
  match s with
  | EmptyString => EmptyString
  | String c s' =>
      if Nat.ltb (nat_of_char c) 127 then String c (transform_decimal_and_space s')
      else if is_space c then String " " (transform_decimal_and_space s')
      else "?"
  end.

Definition blanks_to_spaces (s : string) : string :=
  if is_ascii s then s else transform_decimal_and_space s.

Fixpoint strip_left (s : string) : string :=
  match s with
  | EmptyString => EmptyString
  | String c s' => if is_c_space c then strip_left s' else s
  end.

Definition str_strip (s : string) : string :=
  str_reverse (strip_left (str_reverse (strip_left (blanks_to_spaces s)))).

Fixpoint parse_digits (s : string) (acc digits : Z) (after_digit : bool)
  : option (Z * Z) :=
  match s with
  | EmptyString => if after_digit then Some (acc, digits) else None
  | String c s' =>
      if is_digit c then
        parse_digits s' (acc * 10 + (Z.of_nat (nat_of_char c) - 48)) (digits + 1) true
      else if (Ascii.eqb c "_"%char && after_digit)%bool then
        parse_digits s' acc digits false
      else None
  end.

Definition parse_signed (s : string) : option (Z * Z) :=
  match s with
  | String "-" s' =>
      match parse_digits s' 0 0 false with
      | Some (n, d) => Some (- n, d)
      | None => None
      end
  | String "+" s' => parse_digits s' 0 0 false
  | _ => parse_digits s 0 0 false
  end.

Definition int_of_str (s : string) : outcome Z :=
  match parse_signed (str_strip s) with
  | Some (n, d) =>
      if int_max_str_digits <? d then
        raise ValueError
          ("Exceeds the limit (" ++ Z_to_dec int_max_str_digits
           ++ " digits) for integer string conversion: value has "
           ++ Z_to_dec d
           ++ " digits; use sys.set_int_max_str_digits() to increase the limit")
      else Ok n
  | None => raise ValueError ("invalid literal for int() with base 10: " ++ str_repr s)
  end.

(** [int(v)]. *)
Definition py_int (v : value) : outcome Z :=
  match v with
  | VBool b => Ok (if b then 1 else 0)
  | VInt n => Ok n
  | VFloat f => int_of_float f
  | VStr s => int_of_str s
  | _ =>
      raise TypeError
        ("int() argument must be a string, a bytes-like object or a real number, not '"
         ++ type_name v ++ "'")
  end.

(** [str(n)] of an [int]. *)
Definition int_str (n : Z) : outcome string :=
  if int_max_str_digits <? dec_digits n then
    raise ValueError
      ("Exceeds the limit (" ++ Z_to_dec int_max_str_digits
       ++ " digits) for integer string conversion; use sys.set_int_max_str_digits() to increase the limit")
  else Ok (Z_to_dec n).

(** ** Comparisons *)

Definition both_nan (a b : value) : bool :=
  match a, b with
  | VFloat x, VFloat y => (float_is_nan x && float_is_nan y)%bool
  | _, _ => false
  end.

Fixpoint dict_find (d : list (string * value)) (k : string) : option value :=
  match d with
  | [] => None
  | (k', v) :: d' => if String.eqb k k' then Some v else dict_find d' k
  end.

(** [a == b].  Inside containers CPython first tests identity; the NaN that
    [json.loads] returns is a single object, hence [both_nan]. *)
Fixpoint py_eq (a b : value) {struct a} : bool :=
  match a, b with
  | VNone, VNone => true
  | VStr s, VStr t => String.eqb s t
  | VList xs, VList ys =>
      (fix all2 (xs ys : list value) {struct xs} : bool :=
         match xs, ys with
         | [], [] => true
         | x :: xs', y :: ys' => ((both_nan x y || py_eq x y) && all2 xs' ys')%bool
         | _, _ => false
         end) xs ys
  | VDict d, VDict d' =>
      (Nat.eqb (List.length d) (List.length d')
       && (fix sub (d : list (string * value)) {struct d} : bool :=
             match d with
             | [] => true
             | (k, v) :: rest =>
                 (match dict_find d' k with
                  | Some w => (both_nan v w || py_eq v w)
                  | None => false
                  end && sub rest)%bool
             end) d)%bool
  | _, _ =>
      match as_number a, as_number b with
      | Some x, Some y =>
          match num_compare x y with Some Eq => true | _ => false end
      | _, _ => false
      end
  end.

Definition rich_eq (a b : value) : bool := (both_nan a b || py_eq a b)%bool.

Inductive order_op : Type := OpLt | OpGt.

Definition order_symbol (op : order_op) : string :=
  match op with OpLt => "<" | OpGt => ">" end.

Definition order_holds (op : order_op) (c : option comparison) : bool :=
  match op, c with
  | OpLt, Some Lt => true
  | OpGt, Some Gt => true
  | _, _ => false
  end.

(** [a < b] and [a > b]. *)
Fixpoint py_order (op : order_op) (a b : value) {struct a} : outcome bool :=
  match a, b with
  | VStr s, VStr t => Ok (order_holds op (Some (String.compare s t)))
  | VList xs, VList ys =>
      (fix scan (xs ys : list value) {struct xs} : outcome bool :=
         match xs, ys with
         | x :: xs', y :: ys' =>
             if (both_nan x y || py_eq x y)%bool then scan xs' ys' else py_order op x y
         | _, _ =>
             Ok (order_holds op
                   (Some (Nat.compare (List.length xs) (List.length ys))))
         end) xs ys
  | _, _ =>
      match as_number a, as_number b with
      | Some x, Some y => Ok (order_holds op (num_compare x y))
      | _, _ =>
          raise TypeError
            ("'" ++ order_symbol op ++ "' not supported between instances of '"
             ++ type_name a ++ "' and '" ++ type_name b ++ "'")
      end
  end.

Definition py_lt : value -> value -> outcome bool := py_order OpLt.
Definition py_gt : value -> value -> outcome bool := py_order OpGt.

(** ** Attribute access on an untyped value *)

Definition no_attribute {A} (v : value) (attr : string) : outcome A :=
  raise AttributeError
    ("'" ++ type_name v ++ "' object has no attribute '" ++ attr ++ "'").

(** [obj.get(key, default)]. *)
Definition py_get (obj : value) (key : string) (default : value) : outcome value :=
  match obj with
  | VDict d => Ok (match dict_find d key with Some v => v | None => default end)
  | _ => no_attribute obj "get"
  end.

(** [text.upper()], [text.lower()], [text[::-1]], [len(text)]. *)
Definition py_upper (v : value) : outcome value :=
  match v with
  | VStr s => Ok (VStr (str_upper s))
  | _ => no_attribute v "upper"
  end.

Definition py_lower (v : value) : outcome value :=
  match v with
  | VStr s => Ok (VStr (str_lower s))
  | _ => no_attribute v "lower"
  end.

Definition py_reversed_slice (v : value) : outcome value :=
  match v with
  | VStr s => Ok (VStr (str_reverse s))
  | VList l => Ok (VList (List.rev l))
  | VDict _ => raise KeyError "slice(None, None, -1)"
  | _ => raise TypeError ("'" ++ type_name v ++ "' object is not subscriptable")
  end.

Definition py_len (v : value) : outcome Z :=
  match v with
  | VStr s => Ok (str_len s)
  | VList l => Ok (Z.of_nat (List.length l))
  | VDict d => Ok (Z.of_nat (List.length d))
  | _ => raise TypeError ("object of type '" ++ type_name v ++ "' has no len()")
  end.

(** ** The runtime below the interpreter *)

Record Runtime : Type := {
  (** [repr] of a [float] (shortest text that reads back). *)
  float_repr : spec_float -> string;
  (** [str] of a [complex]. *)
  complex_str : spec_float -> spec_float -> string;
  (** [pow] of the C library on a positive finite base other than 1 and a
      finite non-zero exponent, with a range error turned into the
      exception CPython raises for it. *)
  libm_pow : spec_float -> spec_float -> outcome spec_float;
  (** [complex.__pow__] on a negative base and a non-integral exponent. *)
  complex_pow : spec_float -> spec_float -> outcome (spec_float * spec_float);
  (** [hashlib.md5(text.encode()).hexdigest()] and the same for SHA-256. *)
  md5_hexdigest : string -> string;
  sha256_hexdigest : string -> string;
  (** [str(e)] of the [ValidationError] pydantic raises on this input. *)
  validation_error_text : value -> string;
  (** The JSON encoder behind [model_dump_json]: the text of a value, or the
      fault it raises on a value it cannot encode (text that is not valid
      Unicode). *)
  to_json : value -> outcome string
}.

(** ** Arithmetic *)

Definition unsupported_operands {A} (op : string) (a b : value) : outcome A :=
  raise TypeError
    ("unsupported operand type(s) for " ++ op ++ ": '" ++ type_name a
     ++ "' and '" ++ type_name b ++ "'").

Definition float_binop (f : spec_float -> spec_float -> spec_float)
    (x y : number) : outcome value :=
  fx <- to_float x ;; fy <- to_float y ;; Ok (VFloat (f fx fy)).

(** [a + b]. *)
Definition py_add (a b : value) : outcome value :=
  match as_number a, as_number b with
  | Some (NInt x), Some (NInt y) => Ok (VInt (x + y))
  | Some x, Some y => float_binop f64_add x y
  | _, _ =>
      match a, b with
      | VStr s, VStr t => Ok (VStr (s ++ t))
      | VList l, VList l' => Ok (VList (l ++ l'))
      | VStr _, _ =>
          raise TypeError
            ("can only concatenate str (not " ++ dquote ++ type_name b ++ dquote
             ++ ") to str")
      | VList _, _ =>
          raise TypeError
            ("can only concatenate list (not " ++ dquote ++ type_name b ++ dquote
             ++ ") to list")
      | _, _ => unsupported_operands "+" a b
      end
  end.

(** [a - b]. *)
Definition py_sub (a b : value) : outcome value :=
  match as_number a, as_number b with
  | Some (NInt x), Some (NInt y) => Ok (VInt (x - y))
  | Some x, Some y => float_binop f64_sub x y
  | _, _ => unsupported_operands "-" a b
  end.

Definition is_sequence (v : value) : bool :=
  match v with VStr _ | VList _ => true | _ => false end.

(** [seq * n]: the count has to fit a machine index. *)
Definition sequence_repeat (seq count : value) : outcome value :=
  match as_number count with
  | Some (NInt n) =>
      if ((n <? - 2 ^ 63) || (2 ^ 63 - 1 <? n))%bool then
        raise OverflowError "cannot fit 'int' into an index-sized integer"
      else
        match seq with
        | VStr s => Ok (VStr (str_repeat (Z.to_nat n) s))
        | VList l => Ok (VList (list_repeat (Z.to_nat n) l))
        | _ => unsupported_operands "*" seq count
        end
  | _ =>
      raise TypeError
        ("can't multiply sequence by non-int of type '" ++ type_name count ++ "'")
  end.

(** [a * b]. *)
Definition py_mul (a b : value) : outcome value :=
  match as_number a, as_number b with
  | Some (NInt x), Some (NInt y) => Ok (VInt (x * y))
  | Some x, Some y => float_binop f64_mul x y
  | _, _ =>
      if is_sequence a then sequence_repeat a b
      else if is_sequence b then sequence_repeat b a
      else unsupported_operands "*" a b
  end.

(** [x / y] on two [int]s: the correctly rounded quotient. *)
Definition int_true_divide (x y : Z) : outcome spec_float :=
  match x, y with
  | _, Z0 => raise ZeroDivisionError "division by zero"
  | Z0, _ => Ok (S754_zero (y <? 0))
  | _, _ =>
      match f64_div (S754_finite (x <? 0) (Z.to_pos (Z.abs x)) 0)
                    (S754_finite (y <? 0) (Z.to_pos (Z.abs y)) 0) with
      | S754_infinity _ =>
          raise OverflowError "integer division result too large for a float"
      | q => Ok q
      end
  end.

(** [a / b]. *)
Definition py_truediv (a b : value) : outcome value :=
  match as_number a, as_number b with
  | Some (NInt x), Some (NInt y) => q <- int_true_divide x y ;; Ok (VFloat q)
  | Some x, Some y =>
      fx <- to_float x ;; fy <- to_float y ;;
      if float_is_zero fy then raise ZeroDivisionError "float division by zero"
      else Ok (VFloat (f64_div fx fy))
  | _, _ => unsupported_operands "/" a b
  end.

Section Interpreter.
Context (rt : Runtime).

Definition float_abs (f : spec_float) : spec_float := SFabs f.
Definition float_neg (f : spec_float) : spec_float := SFopp f.

(** [float.__pow__]: CPython settles the special cases itself and leaves
    the rest to the C library. *)
Definition float_pow (iv iw : spec_float) : outcome tool_value :=
  let ret (f : spec_float) : outcome tool_value := Ok (Plain (VFloat f)) in
  if float_is_zero iw then ret float_one
  else if float_is_nan iv then ret iv
  else if float_is_nan iw then ret (if float_eqb iv float_one then float_one else iw)
  else if float_is_inf iw then
    let av := float_abs iv in
    if float_eqb av float_one then ret float_one
    else if Bool.eqb (float_gtb iw float_zero) (float_gtb av float_one)
         then ret (float_abs iw)
         else ret float_zero
  else if float_is_inf iv then
    let odd := float_is_odd_integer iw in
    if float_gtb iw float_zero
    then ret (if odd then iv else float_abs iv)
    else ret (if odd then S754_zero (float_sign iv) else float_zero)
  else if float_is_zero iv then
    if float_ltb iw float_zero
    then raise ZeroDivisionError "0.0 cannot be raised to a negative power"
    else ret (if float_is_odd_integer iw then iv else float_zero)
  else if (float_ltb iv float_zero && negb (float_is_integer iw))%bool then
    z <- complex_pow rt iv iw ;; Ok (Complex (fst z) (snd z))
  else
    let negate := (float_ltb iv float_zero && float_is_odd_integer iw)%bool in
    let av := if float_ltb iv float_zero then float_neg iv else iv in
    if float_eqb av float_one
    then ret (if negate then float_neg float_one else float_one)
    else
      ix <- libm_pow rt av iw ;;
      ret (if negate then float_neg ix else ix).

(** [a ** b]. *)
Definition py_pow (a b : value) : outcome tool_value :=
  match as_number a, as_number b with
  | Some (NInt x), Some (NInt y) =>
      if 0 <=? y then Ok (Plain (VInt (x ^ y)))
      else fx <- float_of_int x ;; fy <- float_of_int y ;; float_pow fx fy
  | Some x, Some y => fx <- to_float x ;; fy <- to_float y ;; float_pow fx fy
  | _, _ => unsupported_operands "** or pow()" a b
  end.

(** [repr(v)] and [str(v)]. *)
Fixpoint py_repr (v : value) {struct v} : outcome string :=
  match v with
  | VNone => Ok "None"
  | VBool b => Ok (if b then "True" else "False")
  | VInt n => int_str n
  | VFloat f => Ok (float_repr rt f)
  | VStr s => Ok (str_repr s)
  | VList l =>
      items <- (fix each (l : list value) {struct l} : outcome (list string) :=
                  match l with
                  | [] => Ok []
                  | x :: l' => s <- py_repr x ;; r <- each l' ;; Ok (s :: r)
                  end) l ;;
      Ok ("[" ++ join ", " items ++ "]")
  | VDict d =>
      items <- (fix each (d : list (string * value)) {struct d}
                  : outcome (list string) :=
                  match d with
                  | [] => Ok []
                  | (k, x) :: d' =>
                      s <- py_repr x ;; r <- each d' ;;
                      Ok ((str_repr k ++ ": " ++ s) :: r)
                  end) d ;;
      Ok ("{" ++ join ", " items ++ "}")
  end.

Definition py_str (v : value) : outcome string :=
  match v with
  | VStr s => Ok s
  | _ => py_repr v
  end.

Definition tool_value_str (r : tool_value) : outcome string :=
  match r with
  | Plain v => py_str v
  | Complex re im => Ok (complex_str rt re im)
  end.

End Interpreter.

(** ** Regular expressions

    The fragment of [re] that [url_pattern] uses: literals, character
    classes, concatenation, alternation, bounded and unbounded repetition.
    The pattern holds no back-reference and no look-around, so [re]'s
    backtracking search succeeds exactly when the text is in the language of
    the expression; [matchb] decides that by derivatives. *)
Module Re.

Inductive regex : Type :=
| Void
| Eps
| Class (p : ascii -> bool)
| Cat (r s : regex)
| Alt (r s : regex)
| Star (r : regex).

Definition Opt (r : regex) : regex := Alt Eps r.
Definition Plus (r : regex) : regex := Cat r (Star r).

(** [r{0,n}] and [r{lo,hi}]. *)
Fixpoint UpTo (n : nat) (r : regex) : regex :=
  match n with
  | O => Eps
  | S n' => Opt (Cat r (UpTo n' r))
  end.

Fixpoint AtLeast (lo : nat) (rest r : regex) : regex :=
  match lo with
  | O => rest
  | S lo' => Cat r (AtLeast lo' rest r)
  end.

Definition Repeat (lo hi : nat) (r : regex) : regex :=
  AtLeast lo (UpTo (hi - lo) r) r.

(** Under [re.IGNORECASE] a literal character matches either case of it. *)
Definition Chr (c : ascii) : regex :=
  Class (fun d => Ascii.eqb (char_lower d) (char_lower c)).

Fixpoint Lit (s : string) : regex :=
  match s with
  | EmptyString => Eps
  | String c s' => Cat (Chr c) (Lit s')
  end.

Fixpoint nullable (r : regex) : bool :=
  match r with
  | Void => false
  | Eps => true
  | Class _ => false
  | Cat r s => (nullable r && nullable s)%bool
  | Alt r s => (nullable r || nullable s)%bool
  | Star _ => true
  end.

Definition cat (r s : regex) : regex :=
  match r, s with
  | Void, _ => Void
  | _, Void => Void
  | Eps, _ => s
  | _, _ => Cat r s
  end.

Definition alt (r s : regex) : regex :=
  match r, s with
  | Void, _ => s
  | _, Void => r
  | _, _ => Alt r s
  end.

Fixpoint deriv (c : ascii) (r : regex) : regex :=
  match r with
  | Void => Void
  | Eps => Void
  | Class p => if p c then Eps else Void
  | Cat r s =>
      if nullable r then alt (cat (deriv c r) s) (deriv c s)
      else cat (deriv c r) s
  | Alt r s => alt (deriv c r) (deriv c s)
  | Star r => cat (deriv c r) (Star r)
  end.

Fixpoint matchb (r : regex) (s : string) : bool :=
  match s with
  | EmptyString => nullable r
  | String c s' => matchb (deriv c r) s'
  end.

(** The language of an expression. *)
Inductive matches : regex -> string -> Prop :=
| MEps : matches Eps ""
| MClass p c : p c = true -> matches (Class p) (String c "")
| MCat r s u v : matches r u -> matches s v -> matches (Cat r s) (u ++ v)
| MAltL r s u : matches r u -> matches (Alt r s) u
| MAltR r s u : matches s u -> matches (Alt r s) u
| MStarNil r : matches (Star r) ""
| MStarCons r u v : matches r u -> matches (Star r) v -> matches (Star r) (u ++ v).

(** [$] without [re.MULTILINE] holds at the end of the text and also just
    before a newline that ends it. *)
Fixpoint drop_final_newline (s : string) : option string :=
  match s with
  | EmptyString => None
  | String c EmptyString => if Ascii.eqb c "010"%char then Some "" else None
  | String c s' =>
      match drop_final_newline s' with
      | Some t => Some (String c t)
      | None => None
      end
  end.

(** [bool(re.compile('^' r '$').match(s))]. *)
Definition anchored_match (r : regex) (s : string) : bool :=
  (matchb r s
   || match drop_final_newline s with
      | Some t => matchb r t
      | None => false
      end)%bool.

End Re.

(** ** The URL pattern of [validate_url], compiled with [re.IGNORECASE] *)

Definition is_alpha (c : ascii) : bool := (is_upper c || is_lower c)%bool.
Definition is_alnum (c : ascii) : bool := (is_alpha c || is_digit c)%bool.
Definition is_alnum_hyphen (c : ascii) : bool := (is_alnum c || Ascii.eqb c "-"%char)%bool.
Definition is_slash_or_query (c : ascii) : bool :=
  (Ascii.eqb c "/"%char || Ascii.eqb c "?"%char)%bool.
Definition is_non_space (c : ascii) : bool := negb (is_space c).

(** [(?:[A-Z0-9](?:[A-Z0-9-]{0,61}[A-Z0-9])?\.)] *)
Definition label_dot : Re.regex :=
  Re.Cat (Re.Class is_alnum)
    (Re.Cat (Re.Opt (Re.Cat (Re.Repeat 0 61 (Re.Class is_alnum_hyphen)) (Re.Class is_alnum)))
       (Re.Chr ".")).

(** [(?:label_dot)+[A-Z]{2,6}\.?] *)
Definition domain_name : Re.regex :=
  Re.Cat (Re.Plus label_dot)
    (Re.Cat (Re.Repeat 2 6 (Re.Class is_alpha)) (Re.Opt (Re.Chr "."))).

(** [\d{1,3}] *)
Definition octet : Re.regex := Re.Repeat 1 3 (Re.Class is_digit).

(** [\d{1,3}\.\d{1,3}\.\d{1,3}\.\d{1,3}] *)
Definition ipv4 : Re.regex :=
  Re.Cat octet (Re.Cat (Re.Chr ".") (Re.Cat octet (Re.Cat (Re.Chr ".")
    (Re.Cat octet (Re.Cat (Re.Chr ".") octet))))).

Definition host : Re.regex :=
  Re.Alt domain_name (Re.Alt (Re.Lit "localhost") ipv4).

(** [(?::\d+)?] *)
Definition port : Re.regex :=
  Re.Opt (Re.Cat (Re.Chr ":") (Re.Plus (Re.Class is_digit))).

(** [(?:/?|[/?]\S+)] *)
Definition path : Re.regex :=
  Re.Alt (Re.Opt (Re.Chr "/"))
    (Re.Cat (Re.Class is_slash_or_query) (Re.Plus (Re.Class is_non_space))).

(** [https?://] host port path *)
Definition url_pattern : Re.regex :=
  Re.Cat (Re.Lit "http") (Re.Cat (Re.Opt (Re.Chr "s")) (Re.Cat (Re.Lit "://")
    (Re.Cat host (Re.Cat port path)))).

(** ** The outside world, as one call observes it *)

Record http_response : Type := {
  response_status_code : Z;
  response_headers : list (string * string);
  response_text : string;
  response_url : string
}.

Record World : Type := {
  (** [datetime.datetime.now().isoformat()] *)
  now_isoformat : string;
  (** [open(filepath, 'r', encoding='utf-8')] followed by [file.read()] *)
  read_text : value -> outcome string;
  (** [open(filepath, 'w', encoding='utf-8')] followed by [file.write(content)] *)
  write_text : value -> value -> outcome unit;
  (** [os.listdir(path)] *)
  listdir : value -> outcome (list string);
  (** the integer the generator extracts from its next draws *)
  entropy : Z;
  (** [str(uuid.uuid4())] *)
  uuid4 : string;
  (** [httpx.AsyncClient().request(method, url, headers=headers)] *)
  http_request : value -> value -> value -> outcome http_response
}.

(** [random.randint(a, b)]: [randrange(a, b + 1)], that is [a] plus a number
    below the width of the range. *)
Definition randbelow (w : World) (n : Z) : Z := entropy w mod n.

Definition randint (w : World) (a b : Z) : outcome Z :=
  let width := b + 1 - a in
  if 0 <? width then Ok (a + randbelow w width)
  else
    sa <- int_str a ;; sb <- int_str (b + 1) ;;
    raise ValueError ("empty range in randrange(" ++ sa ++ ", " ++ sb ++ ")").

(** ** MCP protocol models *)

Definition dict : Type := list (string * value).

Module MCPRequest.
Record t : Type := Build {
  jsonrpc : string;
  id : string;
  method : string;
  params : dict
}.
End MCPRequest.

Module MCPResponse.
Record t : Type := Build {
  jsonrpc : string;
  id : string;
  result : dict;
  error : option dict
}.

(** [MCPResponse(id=..., result=...)]: [jsonrpc] defaults to ["2.0"] and
    [error] to [None]. *)
Definition with_result (id : string) (result : dict) : t :=
  Build "2.0" id result None.

(** [MCPResponse(id=..., error=...)]: [jsonrpc] defaults to ["2.0"] and
    [result] to the empty mapping. *)
Definition with_error (id : string) (error : dict) : t :=
  Build "2.0" id [] (Some error).

(** [model_dump()]: every field of the model is a member of the output. *)
Definition model_dump (r : t) : dict :=
  [ ("jsonrpc", VStr (jsonrpc r));
    ("id", VStr (id r));
    ("result", VDict (result r));
    ("error", match error r with Some e => VDict e | None => VNone end) ].
End MCPResponse.

Definition error_object (code : Z) (message : string) : dict :=
  [ ("code", VInt code); ("message", VStr message) ].

(** ** The tool registry, [MCPServer.tools] *)

Definition property (type description : string) : value :=
  VDict [ ("type", VStr type); ("description", VStr description) ].

Definition property_with_default (type description : string) (default : value) : value :=
  VDict [ ("type", VStr type); ("description", VStr description); ("default", default) ].

Definition input_schema (properties : dict) (required : list string) : value :=
  VDict [ ("type", VStr "object");
          ("properties", VDict properties);
          ("required", VList (map VStr required)) ].

Definition empty_input_schema : value :=
  VDict [ ("type", VStr "object"); ("properties", VDict []) ].

Definition descriptor (name description : string) (schema : value) : string * value :=
  (name, VDict [ ("name", VStr name);
                 ("description", VStr description);
                 ("inputSchema", schema) ]).

Definition two_numbers : value :=
  input_schema [ ("a", property "number" "First number");
                 ("b", property "number" "Second number") ] ["a"; "b"].

Definition one_text (description : string) : value :=
  input_schema [ ("text", property "string" description) ] ["text"].

Definition tools : dict :=
  [ descriptor "echo" "Echo back the input text" (one_text "Text to echo back");
    descriptor "get_time" "Get current server time" empty_input_schema;
    descriptor "add" "Add two numbers together" two_numbers;
    descriptor "subtract" "Subtract second number from first number" two_numbers;
    descriptor "multiply" "Multiply two numbers" two_numbers;
    descriptor "divide" "Divide first number by second number" two_numbers;
    descriptor "power" "Raise first number to the power of second number"
      (input_schema [ ("base", property "number" "Base number");
                      ("exponent", property "number" "Exponent") ]
         ["base"; "exponent"]);
    descriptor "sqrt" "Calculate square root of a number"
      (input_schema [ ("number", property "number" "Number to calculate square root of") ]
         ["number"]);
    descriptor "uppercase" "Convert text to uppercase"
      (one_text "Text to convert to uppercase");
    descriptor "lowercase" "Convert text to lowercase"
      (one_text "Text to convert to lowercase");
    descriptor "reverse_string" "Reverse a string" (one_text "Text to reverse");
    descriptor "string_length" "Get the length of a string" (one_text "Text to measure");
    descriptor "read_file" "Read contents of a file"
      (input_schema [ ("filepath", property "string" "Path to the file to read") ]
         ["filepath"]);
    descriptor "write_file" "Write content to a file"
      (input_schema [ ("filepath", property "string" "Path to the file to write");
                      ("content", property "string" "Content to write to the file") ]
         ["filepath"; "content"]);
    descriptor "list_directory" "List files and directories in a path"
      (input_schema [ ("path", property "string" "Directory path to list") ] ["path"]);
    descriptor "random_number" "Generate a random number between min and max"
      (input_schema [ ("min", property "number" "Minimum value");
                      ("max", property "number" "Maximum value") ]
         ["min"; "max"]);
    descriptor "generate_uuid" "Generate a random UUID" empty_input_schema;
    descriptor "hash_md5" "Generate MD5 hash of input text" (one_text "Text to hash");
    descriptor "hash_sha256" "Generate SHA256 hash of input text" (one_text "Text to hash");
    descriptor "validate_url" "Validate if a string is a valid URL"
      (input_schema [ ("url", property "string" "URL to validate") ] ["url"]);
    descriptor "make_request" "Make an HTTP request to a URL"
      (input_schema
         [ ("url", property "string" "URL to request");
           ("method", property_with_default "string" "HTTP method (GET, POST, etc.)"
                        (VStr "GET"));
           ("headers", property_with_default "object" "HTTP headers" (VDict [])) ]
         ["url"]) ].

(** [key in d] for a dictionary with text keys: lists and dictionaries cannot
    be hashed, any other value is looked up. *)
Definition dict_contains (d : dict) (key : value) : outcome bool :=
  match key with
  | VStr s => Ok (match dict_find d s with Some _ => true | None => false end)
  | VList _ | VDict _ =>
      raise TypeError ("unhashable type: '" ++ type_name key ++ "'")
  | _ => Ok false
  end.

(** [list(d.values())] *)
Definition dict_values (d : dict) : list value := map snd d.

(** ** [MCPServer] *)

Module MCPServer.
Section Server.
Context (rt : Runtime).

Definition plain (v : value) : outcome tool_value := Ok (Plain v).

(** [url_pattern.match(url)] followed by [bool(...)]. *)
Definition match_url (url : value) : outcome bool :=
  match url with
  | VStr s => Ok (Re.anchored_match url_pattern s)
  | _ =>
      raise TypeError
        ("expected string or bytes-like object, got '" ++ type_name url ++ "'")
  end.

(** [hash(text.encode()).hexdigest()] *)
Definition hexdigest (hash : string -> string) (text : value) : outcome tool_value :=
  match text with
  | VStr s => plain (VStr (hash s))
  | _ => no_attribute text "encode"
  end.

Definition headers_dict (h : list (string * string)) : value :=
  VDict (map (fun kv => (fst kv, VStr (snd kv))) h).

(** [async def call_tool(self, tool_name, arguments)] *)
Definition call_tool (w : World) (tool_name arguments : value) : outcome tool_value :=
  let named (name : string) : bool := py_eq tool_name (VStr name) in
  (* Basic tools *)
  if named "echo" then
    text <- py_get arguments "text" (VStr "") ;; plain text
  else if named "get_time" then
    plain (VStr (now_isoformat w))
  (* Mathematical operations *)
  else if named "add" then
    a <- py_get arguments "a" (VInt 0) ;;
    b <- py_get arguments "b" (VInt 0) ;;
    r <- py_add a b ;; plain r
  else if named "subtract" then
    a <- py_get arguments "a" (VInt 0) ;;
    b <- py_get arguments "b" (VInt 0) ;;
    r <- py_sub a b ;; plain r
  else if named "multiply" then
    a <- py_get arguments "a" (VInt 0) ;;
    b <- py_get arguments "b" (VInt 0) ;;
    r <- py_mul a b ;; plain r
  else if named "divide" then
    a <- py_get arguments "a" (VInt 0) ;;
    b <- py_get arguments "b" (VInt 0) ;;
    if py_eq b (VInt 0) then raise ValueError "Division by zero is not allowed"
    else r <- py_truediv a b ;; plain r
  else if named "power" then
    base <- py_get arguments "base" (VInt 0) ;;
    exponent <- py_get arguments "exponent" (VInt 0) ;;
    py_pow rt base exponent
  else if named "sqrt" then
    number <- py_get arguments "number" (VInt 0) ;;
    negative <- py_lt number (VInt 0) ;;
    if negative then raise ValueError "Cannot calculate square root of negative number"
    else py_pow rt number (VFloat float_half)
  (* String operations *)
  else if named "uppercase" then
    text <- py_get arguments "text" (VStr "") ;;
    r <- py_upper text ;; plain r
  else if named "lowercase" then
    text <- py_get arguments "text" (VStr "") ;;
    r <- py_lower text ;; plain r
  else if named "reverse_string" then
    text <- py_get arguments "text" (VStr "") ;;
    r <- py_reversed_slice text ;; plain r
  else if named "string_length" then
    text <- py_get arguments "text" (VStr "") ;;
    n <- py_len text ;; plain (VInt n)
  (* File operations *)
  else if named "read_file" then
    filepath <- py_get arguments "filepath" (VStr "") ;;
    try_except
      (content <- read_text w filepath ;; plain (VStr content))
      (fun e =>
         match exc_cls e with
         | FileNotFoundError =>
             p <- py_str rt filepath ;; raise ValueError ("File not found: " ++ p)
         | _ => raise ValueError ("Error reading file: " ++ exc_text e)
         end)
  else if named "write_file" then
    filepath <- py_get arguments "filepath" (VStr "") ;;
    content <- py_get arguments "content" (VStr "") ;;
    try_except
      (_ <- write_text w filepath content ;;
       n <- py_len content ;; ns <- int_str n ;;
       p <- py_str rt filepath ;;
       plain (VStr ("Successfully wrote " ++ ns ++ " characters to " ++ p)))
      (fun e => raise ValueError ("Error writing file: " ++ exc_text e))
  else if named "list_directory" then
    path <- py_get arguments "path" (VStr ".") ;;
    try_except
      (items <- listdir w path ;;
       plain (VDict [ ("path", path);
                      ("items", VList (map VStr items));
                      ("count", VInt (Z.of_nat (List.length items))) ]))
      (fun e =>
         match exc_cls e with
         | FileNotFoundError =>
             p <- py_str rt path ;; raise ValueError ("Directory not found: " ++ p)
         | _ => raise ValueError ("Error listing directory: " ++ exc_text e)
         end)
  (* Utility functions *)
  else if named "random_number" then
    min_val <- py_get arguments "min" (VInt 0) ;;
    max_val <- py_get arguments "max" (VInt 100) ;;
    inverted <- py_gt min_val max_val ;;
    if inverted then
      raise ValueError "Minimum value cannot be greater than maximum value"
    else
      lo <- py_int min_val ;; hi <- py_int max_val ;;
      n <- randint w lo hi ;; plain (VInt n)
  else if named "generate_uuid" then
    plain (VStr (uuid4 w))
  else if named "hash_md5" then
    text <- py_get arguments "text" (VStr "") ;;
    hexdigest (md5_hexdigest rt) text
  else if named "hash_sha256" then
    text <- py_get arguments "text" (VStr "") ;;
    hexdigest (sha256_hexdigest rt) text
  (* Web utilities *)
  else if named "validate_url" then
    url <- py_get arguments "url" (VStr "") ;;
    b <- match_url url ;; plain (VBool b)
  else if named "make_request" then
    url <- py_get arguments "url" (VStr "") ;;
    m <- py_get arguments "method" (VStr "GET") ;;
    method <- py_upper m ;;
    headers <- py_get arguments "headers" (VDict []) ;;
    try_except
      (response <- http_request w method url headers ;;
       plain (VDict [ ("status_code", VInt (response_status_code response));
                      ("headers", headers_dict (response_headers response));
                      ("content", VStr (response_text response));
                      ("url", VStr (response_url response)) ]))
      (fun e => raise ValueError ("Error making request: " ++ exc_text e))
  else
    name <- py_str rt tool_name ;; raise ValueError ("Unknown tool: " ++ name).

Definition content_envelope (text : string) : dict :=
  [ ("content", VList [ VDict [ ("type", VStr "text"); ("text", VStr text) ] ]) ].

Definition initialize_result : dict :=
  [ ("protocolVersion", VStr "2024-11-05");
    ("capabilities", VDict [ ("tools", VDict []) ]);
    ("serverInfo", VDict [ ("name", VStr "fastapi-mcp-server");
                           ("version", VStr "1.0.0") ]) ].

(** The body of the [try] block of [handle_request]. *)
Definition route (w : World) (request : MCPRequest.t) : outcome MCPResponse.t :=
  let id := MCPRequest.id request in
  if String.eqb (MCPRequest.method request) "initialize" then
    Ok (MCPResponse.with_result id initialize_result)
  else if String.eqb (MCPRequest.method request) "tools/list" then
    Ok (MCPResponse.with_result id [ ("tools", VList (dict_values tools)) ])
  else if String.eqb (MCPRequest.method request) "tools/call" then
    tool_name <- py_get (VDict (MCPRequest.params request)) "name" VNone ;;
    arguments <- py_get (VDict (MCPRequest.params request)) "arguments" (VDict []) ;;
    registered <- dict_contains tools tool_name ;;
    if registered then
      result <- call_tool w tool_name arguments ;;
      text <- tool_value_str rt result ;;
      Ok (MCPResponse.with_result id (content_envelope text))
    else
      name <- py_str rt tool_name ;;
      Ok (MCPResponse.with_error id
            (error_object (-32601) ("Tool '" ++ name ++ "' not found")))
  else
    Ok (MCPResponse.with_error id
          (error_object (-32601)
             ("Method '" ++ MCPRequest.method request ++ "' not found"))).

(** [async def handle_request(self, request)] *)
Definition handle_request (w : World) (request : MCPRequest.t)
  : outcome MCPResponse.t :=
  try_except (route w request)
    (fun e =>
       Ok (MCPResponse.with_error (MCPRequest.id request)
             (error_object (-32603) ("Internal error: " ++ exc_text e)))).

End Server.
End MCPServer.

(** ** [ConnectionManager] *)

Module ConnectionManager.

(** A [WebSocket] object, known by its identity. *)
Definition websocket : Type := nat.

(** [self.active_connections] *)
Definition t : Type := list websocket.

Definition init : t := [].

Fixpoint contains (ws : websocket) (conns : t) : bool :=
  match conns with
  | [] => false
  | c :: rest => (Nat.eqb c ws || contains ws rest)%bool
  end.

(** [list.remove(x)]: drops the first occurrence, raises when there is none. *)
Fixpoint list_remove (ws : websocket) (conns : t) : outcome t :=
  match conns with
  | [] => raise ValueError "list.remove(x): x not in list"
  | c :: rest =>
      if Nat.eqb c ws then Ok rest
      else rest' <- list_remove ws rest ;; Ok (c :: rest')
  end.

(** [async def connect(self, websocket)] *)
Definition connect (ws : websocket) (conns : t) : t := (conns ++ [ws])%list.

(** [def disconnect(self, websocket)] *)
Definition disconnect (ws : websocket) (conns : t) : outcome t :=
  if contains ws conns then list_remove ws conns else Ok conns.

End ConnectionManager.

(** ** FastAPI routes *)

Module Routes.
Section Routes.
Context (rt : Runtime).

(** [GET /health] *)
Definition health_check (manager : ConnectionManager.t) : dict :=
  [ ("status", VStr "healthy");
    ("active_connections", VInt (Z.of_nat (List.length manager))) ].

(** [GET /tools] *)
Definition list_tools : dict := [ ("tools", VList (dict_values tools)) ].

(** [POST /tools/call]: the body of the route; an exception that leaves it
    is answered by the framework with status 500. *)
Definition call_tool (w : World) (request : dict)
  : outcome (list (string * tool_value)) :=
  tool_name <- py_get (VDict request) "name" VNone ;;
  arguments <- py_get (VDict request) "arguments" (VDict []) ;;
  registered <- dict_contains tools tool_name ;;
  if registered then
    result <- MCPServer.call_tool rt w tool_name arguments ;;
    Ok [ ("result", result) ]
  else
    name <- py_str rt tool_name ;;
    Ok [ ("error", Plain (VStr ("Tool '" ++ name ++ "' not found"))) ].

(** The construction of an [MCPRequest] from the keywords in
    [request_data]: pydantic accepts text for the text fields and a mapping
    for [params], fills the defaults and ignores other keys. *)
Definition text_field (d : dict) (key : string) (default : option string)
  : option string :=
  match dict_find d key with
  | Some (VStr s) => Some s
  | Some _ => None
  | None => default
  end.

Definition mapping_field (d : dict) (key : string) (default : option dict)
  : option dict :=
  match dict_find d key with
  | Some (VDict m) => Some m
  | Some _ => None
  | None => default
  end.

Definition parse_request (request_data : value) : outcome MCPRequest.t :=
  match request_data with
  | VDict d =>
      match text_field d "jsonrpc" (Some "2.0"), text_field d "id" None,
            text_field d "method" None, mapping_field d "params" (Some []) with
      | Some jsonrpc, Some id, Some method, Some params =>
          Ok (MCPRequest.Build jsonrpc id method params)
      | _, _, _, _ =>
          raise ValidationError (validation_error_text rt request_data)
      end
  | _ =>
      raise TypeError
        ("__main__.MCPRequest() argument after ** must be a mapping, not "
         ++ type_name request_data)
  end.

(** One text frame, seen through [json.loads]: the decoded value, or the
    exception the decoder raised; with the world its handling observes, and
    with what [websocket.send_text] does with the first, second, ... message
    sent while the frame is handled. *)
Record frame : Type := Frame {
  loads : outcome value;
  world : World;
  send_text : nat -> string -> outcome unit
}.

(** What [websocket.receive_text()] does: it yields a text frame, or raises
    [WebSocketDisconnect], or raises something else (on a binary frame, for
    one). *)
Inductive event : Type :=
| Text (f : frame)
| Disconnect
| Broken (e : pyexc).

(** [response.model_dump_json()] *)
Definition model_dump_json (r : MCPResponse.t) : outcome string :=
  to_json rt (VDict (MCPResponse.model_dump r)).

(** [manager.send_personal_message(r.model_dump_json(), websocket)], as the
    [k]-th message while the frame is handled. *)
Definition send_response (f : frame) (k : nat) (r : MCPResponse.t) : outcome unit :=
  message <- model_dump_json r ;; send_text f k message.

(** The first two statements of the inner [try]: the frame is decoded into
    a request. *)
Definition decode (f : frame) : outcome MCPRequest.t :=
  request_data <- loads f ;; parse_request request_data.

(** The inner [try] up to the response of the dispatcher. *)
Definition respond (f : frame) : outcome MCPResponse.t :=
  request <- decode f ;; MCPServer.handle_request rt (world f) request.

(** The [error_response] of the two [except] clauses. *)
Definition error_response (e : pyexc) : MCPResponse.t :=
  match exc_cls e with
  | JSONDecodeError =>
      MCPResponse.with_error "unknown" (error_object (-32700) "Parse error")
  | _ =>
      MCPResponse.with_error "unknown"
        (error_object (-32603) ("Internal error: " ++ exc_text e))
  end.

(** What the handling of one frame leaves behind: the messages the channel
    took, and the exception that left the inner [try], if one did. *)
Record handled : Type := Handled {
  delivered : list MCPResponse.t;
  escaped : option pyexc
}.

(** An [except] clause: it sends the error response; a fault of that send is
    not caught. *)
Definition recover (f : frame) (k : nat) (e : pyexc) : handled :=
  match send_response f k (error_response e) with
  | Ok _ => Handled [ error_response e ] None
  | Raised e' => Handled [] (Some e')
  end.

(** The inner [try ... except] of the receive loop, for one frame: a fault of
    the decoding, of [model_dump_json] or of the send is caught by an
    [except] clause, which sends the error response as the next message.
    The calls of [logger] have no part in it: the second
    [response.model_dump_json()] repeats the first. *)
Definition answer (f : frame) : handled :=
  match respond f with
  | Ok response =>
      match model_dump_json response with
      | Ok message =>
          match send_text f 0 message with
          | Ok _ => Handled [ response ] None
          | Raised e => recover f 1 e
          end
      | Raised e => recover f 0 e
      end
  | Raised e => recover f 0 e
  end.

(** How a run of the endpoint stands when the events seen so far are used
    up: still awaiting a frame, closed by a disconnect, or stopped by an
    exception. *)
Inductive status : Type :=
| Awaiting
| Closed
| Failed (e : pyexc).

Record session : Type := Session {
  sent : list MCPResponse.t;
  manager : ConnectionManager.t;
  state : status
}.

(** An exception that leaves the loop: [except WebSocketDisconnect]
    unregisters the websocket, anything else leaves the endpoint. *)
Definition stop (ws : ConnectionManager.websocket) (conns : ConnectionManager.t)
    (e : pyexc) : session :=
  match exc_cls e with
  | WebSocketDisconnect =>
      match ConnectionManager.disconnect ws conns with
      | Ok conns' => Session [] conns' Closed
      | Raised e' => Session [] conns (Failed e')
      end
  | _ => Session [] conns (Failed e)
  end.

(** [while True: ...] of [websocket_endpoint], under its outer [try]. *)
Fixpoint receive_loop (ws : ConnectionManager.websocket)
    (conns : ConnectionManager.t) (events : list event) : session :=
  match events with
  | [] => Session [] conns Awaiting
  | Text f :: rest =>
      let h := answer f in
      let s := match escaped h with
               | None => receive_loop ws conns rest
               | Some e => stop ws conns e
               end in
      Session (delivered h ++ sent s) (manager s) (state s)
  | Disconnect :: _ => stop ws conns (Exc WebSocketDisconnect "")
  | Broken e :: _ => stop ws conns e
  end.

(** [async def websocket_endpoint(websocket)], once [manager.connect] has
    accepted the websocket; [events] is what the calls of [receive_text]
    meet, in order. *)
Definition websocket_endpoint (ws : ConnectionManager.websocket)
    (conns : ConnectionManager.t) (events : list event) : session :=
  receive_loop ws (ConnectionManager.connect ws conns) events.

End Routes.
End Routes.

(** ** Vocabulary of the specification *)

(** A member of a JSON object counts as set when the object holds the key with
    a value other than [null]. *)
Definition member_set (object : dict) (key : string) : bool :=
  match dict_find object key with
  | Some VNone | None => false
  | Some _ => true
  end.

(** "Exactly one of result/error": one member is set and the other is not. *)
Definition exactly_one_of_result_error (r : MCPResponse.t) : bool :=
  xorb (member_set (MCPResponse.model_dump r) "result")
       (member_set (MCPResponse.model_dump r) "error").

Definition error_code (r : MCPResponse.t) : option Z :=
  match MCPResponse.error r with
  | Some e => match dict_find e "code" with Some (VInt c) => Some c | _ => None end
  | None => None
  end.

Definition error_message (r : MCPResponse.t) : option string :=
  match MCPResponse.error r with
  | Some e => match dict_find e "message" with Some (VStr m) => Some m | _ => None end
  | None => None
  end.

(** A request for [tools/call]. *)
Definition tools_call (id : string) (params : dict) : MCPRequest.t :=
  MCPRequest.Build "2.0" id "tools/call" params.

Definition param_name (params : dict) : value :=
  match dict_find params "name" with Some v => v | None => VNone end.

Definition param_arguments (params : dict) : value :=
  match dict_find params "arguments" with Some v => v | None => VDict [] end.

(** The name is a key of the registry. *)
Definition registered (name : value) : bool :=
  match name with
  | VStr s => match dict_find tools s with Some _ => true | None => false end
  | _ => false
  end.

(** The faults that can arise while a [tools/call] request is served: the
    registry lookup cannot hash the name; the name or the result cannot be
    rendered as text; the tool's execution raises. *)
Inductive tools_call_fault (rt : Runtime) (w : World) (name arguments : value)
  : pyexc -> Prop :=
| LookupFault e :
    dict_contains tools name = Raised e ->
    tools_call_fault rt w name arguments e
| NameFault e :
    dict_contains tools name = Ok false -> py_str rt name = Raised e ->
    tools_call_fault rt w name arguments e
| ExecutionFault e :
    dict_contains tools name = Ok true ->
    MCPServer.call_tool rt w name arguments = Raised e ->
    tools_call_fault rt w name arguments e
| RenderingFault v e :
    dict_contains tools name = Ok true ->
    MCPServer.call_tool rt w name arguments = Ok v ->
    tool_value_str rt v = Raised e ->
    tools_call_fault rt w name arguments e.

(** [x > y] and [x <= y] on numbers; both fail when a NaN is involved. *)
Definition number_gt (x y : number) : bool :=
  match num_compare x y with Some Gt => true | _ => false end.

Definition number_le (x y : number) : bool :=
  match num_compare x y with Some Lt | Some Eq => true | _ => false end.

(** The integer a finite number truncates to. *)
Definition truncation (x : number) : option Z :=
  match real_of_number x with
  | RFin m e => Some (fin_trunc m e)
  | _ => None
  end.

(** The URL grammar in the words of the specification: a scheme, then a host
    name, an IPv4 address or [localhost], then an optional port, then an
    optional path or query; letters in either case. *)
Module UrlGrammar.

Fixpoint all_chars (p : ascii -> bool) (s : string) : bool :=
  match s with
  | EmptyString => true
  | String c s' => (p c && all_chars p s')%bool
  end.

Definition same_letters (s t : string) : Prop := str_lower s = str_lower t.

Definition scheme (s : string) : Prop :=
  same_letters s "http" \/ same_letters s "https".

(** One label of a host name: 1 to 63 letters, digits and hyphens, with no
    hyphen at either end. *)
Definition label (l : string) : Prop :=
  exists first rest,
    l = String first rest /\ is_alnum first = true /\
    (rest = "" \/
     exists middle last,
       rest = middle ++ String last "" /\
       (String.length middle <= 61)%nat /\
       all_chars is_alnum_hyphen middle = true /\ is_alnum last = true).

Fixpoint dotted (labels : list string) : string :=
  match labels with
  | [] => ""
  | l :: rest => l ++ "." ++ dotted rest
  end.

(** Labels, each followed by a dot, then a top-level domain of 2 to 6
    letters and an optional final dot. *)
Definition domain (h : string) : Prop :=
  exists labels tld dot,
    labels <> [] /\ Forall label labels /\
    (2 <= String.length tld <= 6)%nat /\ all_chars is_alpha tld = true /\
    (dot = "" \/ dot = ".") /\
    h = dotted labels ++ tld ++ dot.

Definition octet (o : string) : Prop :=
  (1 <= String.length o <= 3)%nat /\ all_chars is_digit o = true.

Definition ipv4 (h : string) : Prop :=
  exists a b c d,
    octet a /\ octet b /\ octet c /\ octet d /\
    h = a ++ "." ++ b ++ "." ++ c ++ "." ++ d.

Definition host (h : string) : Prop :=
  domain h \/ same_letters h "localhost" \/ ipv4 h.

Definition port (p : string) : Prop :=
  p = "" \/ exists digits, digits <> "" /\ all_chars is_digit digits = true /\
                           p = ":" ++ digits.

Definition path_or_query (q : string) : Prop :=
  q = "" \/ q = "/" \/
  exists lead rest,
    is_slash_or_query lead = true /\ rest <> "" /\
    all_chars is_non_space rest = true /\ q = String lead rest.

Definition url (u : string) : Prop :=
  exists s h p q,
    scheme s /\ host h /\ port p /\ path_or_query q /\
    u = s ++ "://" ++ h ++ p ++ q.

End UrlGrammar.

Definition newline : string := String "010"%char "".

(** Life of the connection registry: a run of connects and disconnects. *)
Inductive registry_op : Type :=
| Connect (ws : ConnectionManager.websocket)
| Drop (ws : ConnectionManager.websocket).

Fixpoint run_registry (ops : list registry_op) (conns : ConnectionManager.t)
  : outcome ConnectionManager.t :=
  match ops with
  | [] => Ok conns
  | Connect ws :: rest => run_registry rest (ConnectionManager.connect ws conns)
  | Drop ws :: rest =>
      conns' <- ConnectionManager.disconnect ws conns ;; run_registry rest conns'
  end.

(** The count that [GET /health] reports. *)
Definition reported_connections (conns : ConnectionManager.t) : option Z :=
  match dict_find (Routes.health_check conns) "active_connections" with
  | Some (VInt n) => Some n
  | _ => None
  end.

(** The session that sends [r] and then goes on as [s]. *)
Definition after_sending (r : MCPResponse.t) (s : Routes.session) : Routes.session :=
  Routes.Session (r :: Routes.sent s) (Routes.manager s) (Routes.state s).

(** The code and the message of the error that answers a frame whose
    decoding raised [e]. *)
Definition decode_error_code (e : pyexc) : Z :=
  match exc_cls e with JSONDecodeError => -32700 | _ => -32603 end.

Definition decode_error_message (e : pyexc) : string :=
  match exc_cls e with
  | JSONDecodeError => "Parse error"
  | _ => "Internal error: " ++ exc_text e
  end.

(** A character class that cannot tell the two cases of a letter apart, and
    an expression all of whose classes are such. *)
Definition class_case_blind (p : ascii -> bool) : bool :=
  forallb
    (fun n =>
       let c := ascii_of_nat n in
       (Bool.eqb (p (char_upper c)) (p c) && Bool.eqb (p (char_lower c)) (p c))%bool)
    (seq 0 256).

Fixpoint case_blind (r : Re.regex) : bool :=
  match r with
  | Re.Void | Re.Eps => true
  | Re.Class p => class_case_blind p
  | Re.Cat r s | Re.Alt r s => (case_blind r && case_blind s)%bool
  | Re.Star r => case_blind r
  end.

(** The arguments of [validate_url]. *)
Definition url_argument (url : value) : value := VDict [ ("url", url) ].

(** The text ends with a newline. *)
Definition ends_with_newline (s : string) : bool :=
  match Re.drop_final_newline s with Some _ => true | None => false end.

(** A mapping, as opposed to any other JSON value. *)
Definition is_mapping (v : value) : bool :=
  match v with VDict _ => true | _ => false end.

(** The arguments that each binding of [call_tool] reads, each with the
    default the binding gives to [arguments.get]. *)
Definition binding_defaults : list (string * dict) :=
  [ ("echo", [ ("text", VStr "") ]);
    ("get_time", []);
    ("add", [ ("a", VInt 0); ("b", VInt 0) ]);
    ("subtract", [ ("a", VInt 0); ("b", VInt 0) ]);
    ("multiply", [ ("a", VInt 0); ("b", VInt 0) ]);
    ("divide", [ ("a", VInt 0); ("b", VInt 0) ]);
    ("power", [ ("base", VInt 0); ("exponent", VInt 0) ]);
    ("sqrt", [ ("number", VInt 0) ]);
    ("uppercase", [ ("text", VStr "") ]);
    ("lowercase", [ ("text", VStr "") ]);
    ("reverse_string", [ ("text", VStr "") ]);
    ("string_length", [ ("text", VStr "") ]);
    ("read_file", [ ("filepath", VStr "") ]);
    ("write_file", [ ("filepath", VStr ""); ("content", VStr "") ]);
    ("list_directory", [ ("path", VStr ".") ]);
    ("random_number", [ ("min", VInt 0); ("max", VInt 100) ]);
    ("generate_uuid", []);
    ("hash_md5", [ ("text", VStr "") ]);
    ("hash_sha256", [ ("text", VStr "") ]);
    ("validate_url", [ ("url", VStr "") ]);
    ("make_request",
     [ ("url", VStr ""); ("method", VStr "GET"); ("headers", VDict []) ]) ].

Fixpoint defaults_of (table : list (string * dict)) (name : string) : dict :=
  match table with
  | [] => []
  | (k, d) :: rest => if String.eqb name k then d else defaults_of rest name
  end.

Definition defaults (name : string) : dict := defaults_of binding_defaults name.

(** The arguments a descriptor advertises, and those it declares
    [required]. *)
Definition schema_member (descriptor : value) (member : string) : option value :=
  match descriptor with
  | VDict d =>
      match dict_find d "inputSchema" with
      | Some (VDict schema) => dict_find schema member
      | _ => None
      end
  | _ => None
  end.

Definition declared_arguments (descriptor : value) : list string :=
  match schema_member descriptor "properties" with
  | Some (VDict properties) => map fst properties
  | _ => []
  end.

Definition required_arguments (descriptor : value) : list string :=
  match schema_member descriptor "required" with
  | Some (VList names) =>
      flat_map (fun v => match v with VStr s => [ s ] | _ => [] end) names
  | _ => []
  end.

Definition string_in (l : list string) (s : string) : bool := existsb (String.eqb s) l.

Fixpoint same_names (a b : list string) : bool :=
  match a, b with
  | [], [] => true
  | x :: a', y :: b' => (String.eqb x y && same_names a' b')%bool
  | _, _ => false
  end.

(** The binding of a registry entry has a default for exactly the arguments
    the entry advertises, the [required] ones among them. *)
Definition every_argument_has_default (entry : string * value) : bool :=
  (same_names (declared_arguments (snd entry)) (map fst (defaults (fst entry)))
   && forallb (string_in (map fst (defaults (fst entry))))
        (required_arguments (snd entry)))%bool.

(** The tools whose binding never looks at its arguments. *)
Definition ignores_arguments (name : string) : bool :=
  (String.eqb name "get_time" || String.eqb name "generate_uuid")%bool.

(** The values that compare equal to the integer zero. *)
Definition is_zero (v : value) : bool :=
  match v with
  | VInt 0 | VBool false | VFloat (S754_zero _) => true
  | _ => false
  end.

(** [x < 0] on a number. *)
Definition number_negative (x : number) : bool :=
  match num_compare x (NInt 0) with Some Lt => true | _ => false end.

(** Text in the ASCII range. *)
Definition ascii_text (s : string) : bool :=
  UrlGrammar.all_chars (fun c => Nat.ltb (nat_of_char c) 128) s.

(** A call of a tool that takes one argument [text]. *)
Definition text_arguments (s : string) : value := VDict [ ("text", VStr s) ].

(** A call of a tool that takes the two arguments [a] and [b]. *)
Definition pair_arguments (a b : value) : value := VDict [ ("a", a); ("b", b) ].

(** The exception is a [WebSocketDisconnect]. *)
Definition is_disconnect (e : pyexc) : bool :=
  match exc_cls e with WebSocketDisconnect => true | _ => false end.

(** The frames that reach the endpoint before the channel disconnects or
    breaks. *)
Fixpoint received (events : list Routes.event) : list Routes.frame :=
  match events with
  | Routes.Text f :: rest => f :: received rest
  | _ => []
  end.

(** The frames that a run of the endpoint reads: those received up to the
    first one whose handling lets an exception escape. *)
Fixpoint frames_read (rt : Runtime) (events : list Routes.event) : list Routes.frame :=
  match events with
  | Routes.Text f :: rest =>
      f :: match Routes.escaped (Routes.answer rt f) with
           | None => frames_read rt rest
           | Some _ => []
           end
  | _ => []
  end.

(** The run meets a [WebSocketDisconnect]: [receive_text] raises it, or a
    send that no [except] clause covers does; and no other exception stops
    the run before. *)
Fixpoint disconnected (rt : Runtime) (events : list Routes.event) : bool :=
  match events with
  | [] => false
  | Routes.Disconnect :: _ => true
  | Routes.Broken e :: _ => is_disconnect e
  | Routes.Text f :: rest =>
      match Routes.escaped (Routes.answer rt f) with
      | None => disconnected rt rest
      | Some e => is_disconnect e
      end
  end.

(** The channel takes whatever is sent while the frames of these events are
    handled, and [receive_text] raises nothing but [WebSocketDisconnect]. *)
Definition reliable (rt : Runtime) (events : list Routes.event) : Prop :=
  (forall f, In (Routes.Text f) events ->
     forall k r, Routes.send_response rt f k r = Ok tt) /\
  (forall e, In (Routes.Broken e) events -> is_disconnect e = true).

(** How often a websocket is in the registry. *)
Fixpoint occurrences (ws : ConnectionManager.websocket) (conns : ConnectionManager.t)
  : nat :=
  match conns with
  | [] => O
  | c :: rest => ((if Nat.eqb c ws then 1 else 0) + occurrences ws rest)%nat
  end.

(** Every key of the registry is the [name] of its descriptor. *)
Definition named_by_key (entry : string * value) : bool :=
  match snd entry with
  | VDict d =>
      match dict_find d "name" with
      | Some (VStr n) => String.eqb n (fst entry)
      | _ => false
      end
  | _ => false
  end.

(** ** A closed instance for examples

    A runtime whose library functions answer with fixed text, and a world
    with a stopped clock, no readable file and no network. *)
Module Sample.

Definition unavailable {A} (what : string) : outcome A := raise OSError what.

Definition runtime : Runtime := {|
  float_repr := fun _ => "0.0";
  complex_str := fun _ _ => "0j";
  libm_pow := fun _ _ => raise OverflowError "(34, 'Numerical result out of range')";
  complex_pow := fun _ _ => raise OverflowError "complex exponentiation";
  md5_hexdigest := fun _ => "d41d8cd98f00b204e9800998ecf8427e";
  sha256_hexdigest := fun _ =>
    "e3b0c44298fc1c149afbf4c8996fb92427ae41e4649b934ca495991b7852b855";
  validation_error_text := fun _ => "1 validation error for MCPRequest";
  to_json := fun _ => Ok "{}"
|}.

Definition world : World := {|
  now_isoformat := "2024-11-05T00:00:00";
  read_text := fun _ => raise FileNotFoundError "[Errno 2] No such file or directory";
  write_text := fun _ _ => unavailable "[Errno 30] Read-only file system";
  listdir := fun _ => Ok [];
  entropy := 0;
  uuid4 := "00000000-0000-4000-8000-000000000000";
  http_request := fun _ _ _ => unavailable "All connection attempts failed"
|}.

(** A world in which files, directories and the network answer. *)
Definition served_world : World := {|
  now_isoformat := "2024-11-05T00:00:00";
  read_text := fun _ => Ok "data";
  write_text := fun _ _ => Ok tt;
  listdir := fun _ => Ok [ "main.py" ];
  entropy := 7;
  uuid4 := "00000000-0000-4000-8000-000000000000";
  http_request := fun _ url _ =>
    Ok {| response_status_code := 200;
          response_headers := [ ("content-type", "application/json") ];
          response_text := "{}";
          response_url := match url with VStr s => s | _ => "" end |}
|}.

(** The request of the end-to-end scenario, and the response the
    specification gives for it. *)
Definition add_request : MCPRequest.t :=
  tools_call "1"
    [ ("name", VStr "add");
      ("arguments", VDict [ ("a", VInt 2); ("b", VInt 3) ]) ].

Definition add_response_of_the_specification : dict :=
  [ ("jsonrpc", VStr "2.0");
    ("id", VStr "1");
    ("result",
     VDict [ ("content",
              VList [ VDict [ ("type", VStr "text"); ("text", VStr "5") ] ]) ]) ].

(** A request with a method the server does not know. *)
Definition ping_request : MCPRequest.t := MCPRequest.Build "2.0" "1" "ping" [].

(** A call whose name is a list. *)
Definition list_name_params : dict :=
  [ ("name", VList [ VStr "add" ]); ("arguments", VDict []) ].

(** A call of a tool that is not registered. *)
Definition nonexistent_params : dict :=
  [ ("name", VStr "nonexistent"); ("arguments", VDict []) ].

(** A frame that is not JSON, a frame whose JSON object lacks the [id], and a
    frame that holds an [initialize] request. *)
Definition open_channel (k : nat) (message : string) : outcome unit := Ok tt.

Definition garbled_frame : Routes.frame :=
  Routes.Frame
    (raise JSONDecodeError "Expecting value: line 1 column 1 (char 0)") world
    open_channel.

Definition frame_without_id : Routes.frame :=
  Routes.Frame (Ok (VDict [ ("method", VStr "initialize") ])) world open_channel.

Definition initialize_request : MCPRequest.t :=
  MCPRequest.Build "2.0" "7" "initialize" [].

Definition initialize_frame : Routes.frame :=
  Routes.Frame
    (Ok (VDict [ ("jsonrpc", VStr "2.0"); ("id", VStr "7");
                 ("method", VStr "initialize") ])) world open_channel.

(** The arguments of [random_number], and the numbers one half and three
    quarters. *)
Definition range_arguments (lo hi : value) : value :=
  VDict [ ("min", lo); ("max", hi) ].

Definition one_half : spec_float := float64_of 1 (-1).
Definition three_quarters : spec_float := float64_of 3 (-2).

(** A division by zero, as the body of [POST /tools/call] and as the
    parameters of a [tools/call] request. *)
Definition divide_by_zero : dict :=
  [ ("name", VStr "divide");
    ("arguments", VDict [ ("a", VInt 1); ("b", VInt 0) ]) ].

End Sample.

(** * Properties *)

(** ** The dispatcher *)

Section Dispatcher.
Context (rt : Runtime).

Local Abbreviation handle_request := (MCPServer.handle_request rt).
Local Abbreviation route := (MCPServer.route rt).
Local Abbreviation call_tool := (MCPServer.call_tool rt).

(** The parameters of a call, as [route] reads them. *)
Lemma get_name params :
  py_get (VDict params) "name" VNone = Ok (param_name params).
Proof. reflexivity. Qed.

Lemma get_arguments params :
  py_get (VDict params) "arguments" (VDict []) = Ok (param_arguments params).
Proof. reflexivity. Qed.

(** What [route] does with a [tools/call] request, step by step. *)
Lemma route_tools_call w id params :
  route w (tools_call id params) =
  (registered <- dict_contains tools (param_name params) ;;
   if registered then
     result <- call_tool w (param_name params) (param_arguments params) ;;
     text <- tool_value_str rt result ;;
     Ok (MCPResponse.with_result id (MCPServer.content_envelope text))
   else
     name <- py_str rt (param_name params) ;;
     Ok (MCPResponse.with_error id
           (error_object (-32601) ("Tool '" ++ name ++ "' not found")))).
Proof. reflexivity. Qed.

(** A response that [route] returns is either a success with a non-empty
    result or a [-32601] error; both echo the id. *)
Lemma route_returns w request r :
  route w request = Ok r ->
  (exists result, result <> [] /\
     r = MCPResponse.with_result (MCPRequest.id request) result) \/
  (exists message,
     r = MCPResponse.with_error (MCPRequest.id request)
           (error_object (-32601) message)).
Proof.
  unfold MCPServer.route.
  destruct (String.eqb (MCPRequest.method request) "initialize").
  { intros [= <-]. left. eexists. split; [|reflexivity]. discriminate. }
  destruct (String.eqb (MCPRequest.method request) "tools/list").
  { intros [= <-]. left. eexists. split; [|reflexivity]. discriminate. }
  destruct (String.eqb (MCPRequest.method request) "tools/call").
  - rewrite get_name, get_arguments. cbn [bind].
    destruct (dict_contains tools _) as [[|]|e]; cbn [bind]; try discriminate.
    + destruct (call_tool w _ _) as [v|e]; cbn [bind]; try discriminate.
      destruct (tool_value_str rt v) as [t|e]; cbn [bind]; try discriminate.
      intros [= <-]. left. eexists. split; [|reflexivity]. discriminate.
    + destruct (py_str rt _) as [n|e]; cbn [bind]; try discriminate.
      intros [= <-]. right. eexists. reflexivity.
  - intros [= <-]. right. eexists. reflexivity.
Qed.

(** [handle_request] always returns a response: of [route] when it returns
    one, and the [-32603] error that carries the fault's text otherwise. *)
Lemma handle_request_returns w request :
  exists r, handle_request w request = Ok r /\
    match route w request with
    | Ok r' => r = r'
    | Raised e =>
        r = MCPResponse.with_error (MCPRequest.id request)
              (error_object (-32603) ("Internal error: " ++ exc_text e))
    end.
Proof.
  unfold MCPServer.handle_request.
  destruct (route w request) as [r|e]; cbn [try_except]; eauto.
Qed.

(** C1 (as amended): every response carries its error object exactly on the
    error paths and a non-empty result exactly on the success paths; on an
    error path the result is the empty mapping, on a success path the error
    is [None]. *)
Theorem response_result_xor_error w request :
  exists r, handle_request w request = Ok r /\
    ((MCPResponse.error r = None /\ MCPResponse.result r <> []) \/
     (exists e, MCPResponse.error r = Some e /\ MCPResponse.result r = [])).
Proof.
  destruct (handle_request_returns w request) as (r & Hr & Hroute).
  exists r. split; [exact Hr|].
  destruct (route w request) as [r'|e] eqn:E.
  - subst r'. destruct (route_returns _ _ _ E) as [(res & Hne & ->)|(m & ->)].
    + left. split; [reflexivity|exact Hne].
    + right. eexists. split; reflexivity.
  - subst r. right. eexists. split; reflexivity.
Qed.

(** C5: the response carries the id of the request, on every path. *)
Theorem response_echoes_id w request :
  exists r, handle_request w request = Ok r /\
    MCPResponse.id r = MCPRequest.id request.
Proof.
  destruct (handle_request_returns w request) as (r & Hr & Hroute).
  exists r. split; [exact Hr|].
  destruct (route w request) as [r'|e] eqn:E.
  - subst r'. destruct (route_returns _ _ _ E) as [(res & _ & ->)|(m & ->)];
      reflexivity.
  - subst r. reflexivity.
Qed.

(** The registry lookup answers whether the name is registered, when it
    answers. *)
Lemma dict_contains_registered name b :
  dict_contains tools name = Ok b -> b = registered name.
Proof.
  destruct name; cbn; intros [= <-]; reflexivity.
Qed.

Ltac fault_cases :=
  match goal with
  | H : tools_call_fault _ _ _ _ _ |- _ => inversion H; subst; clear H
  end; try congruence.

(** C4 (as amended): a [tools/call] request is answered with [-32601] exactly
    when the lookup of the name succeeds and finds nothing (and the name can
    be printed), and with [-32603] exactly when a fault is raised while the
    request is served: by the lookup itself, by the tool's execution or by
    the rendering of the result; the message is then the fault's text after
    ["Internal error: "].  A response is returned in every case. *)
Theorem tools_call_error_codes w id params :
  exists r, handle_request w (tools_call id params) = Ok r /\
    (error_code r = Some (-32601) <->
     dict_contains tools (param_name params) = Ok false /\
     exists s, py_str rt (param_name params) = Ok s) /\
    (error_code r = Some (-32603) <->
     exists e, tools_call_fault rt w (param_name params) (param_arguments params) e) /\
    (forall e,
       tools_call_fault rt w (param_name params) (param_arguments params) e ->
       error_message r = Some ("Internal error: " ++ exc_text e)).
Proof.
  unfold MCPServer.handle_request. rewrite route_tools_call.
  destruct (dict_contains tools (param_name params)) as [[|]|e0] eqn:Hin;
    cbn [bind try_except].
  - destruct (call_tool w (param_name params) (param_arguments params))
      as [v|e1] eqn:Hcall; cbn [bind try_except].
    + destruct (tool_value_str rt v) as [t|e2] eqn:Hstr; cbn [bind try_except];
        eexists; (split; [reflexivity|]); cbn; repeat split;
        try discriminate; try (intros [? _]; discriminate).
      * intros [e He]. fault_cases.
      * intros e He. fault_cases.
      * intros _. exists e2. eapply RenderingFault; eassumption.
      * intros e He. fault_cases.
    + eexists; (split; [reflexivity|]); cbn; repeat split;
        try discriminate; try (intros [? _]; discriminate).
      * intros _. exists e1. eapply ExecutionFault; eassumption.
      * intros e He. fault_cases.
  - destruct (py_str rt (param_name params)) as [n|e1] eqn:Hname;
      cbn [bind try_except];
      eexists; (split; [reflexivity|]); cbn; repeat split;
      try discriminate; try (intros [? _]; discriminate); eauto.
    + intros [e He]. fault_cases.
    + intros e He. fault_cases.
    + intros [_ [s Hs]]. discriminate.
    + intros _. exists e1. eapply NameFault; eassumption.
    + intros e He. fault_cases.
  - eexists; (split; [reflexivity|]); cbn; repeat split;
      try discriminate; try (intros [? _]; discriminate).
    + intros _. exists e0. eapply LookupFault; eassumption.
    + intros e He. fault_cases.
Qed.

(** C6 (as amended): the end-to-end scenario yields the members the
    specification lists, followed by the member ["error"] with value
    [None]. *)
Theorem add_scenario_response w :
  exists r, handle_request w Sample.add_request = Ok r /\
    MCPResponse.model_dump r =
    (Sample.add_response_of_the_specification ++ [ ("error", VNone) ])%list.
Proof.
  eexists. split; reflexivity.
Qed.

(** C3: the body of [POST /tools/call] lets the fault of a tool escape,
    where the dispatcher answers the same call with an error object. *)
Theorem http_call_tool_lets_fault_escape w :
  Routes.call_tool rt w Sample.divide_by_zero =
    Raised (Exc ValueError "Division by zero is not allowed") /\
  handle_request w (tools_call "1" Sample.divide_by_zero) =
    Ok (MCPResponse.with_error "1"
          (error_object (-32603)
             "Internal error: Division by zero is not allowed")).
Proof.
  split; reflexivity.
Qed.

Lemma dict_find_app d e k :
  dict_find (d ++ e)%list k =
  match dict_find d k with Some v => Some v | None => dict_find e k end.
Proof.
  induction d as [|[k' v'] d IH]; cbn [dict_find app]; [reflexivity|].
  destruct (String.eqb k k'); [reflexivity|exact IH].
Qed.

(** A key that is absent reads as its default, so a mapping may as well
    carry the default. *)
Lemma py_get_default d e k v :
  dict_find e k = Some v ->
  py_get (VDict (d ++ e)%list) k v = py_get (VDict d) k v.
Proof.
  intros H. unfold py_get. rewrite dict_find_app, H.
  now destruct (dict_find d k).
Qed.

(** C9 (as amended): every binding reads every argument with a built-in
    default: a call on a mapping answers as the call on the mapping completed
    with the defaults of the tool, and the defaults cover exactly the
    arguments the registry advertises, the [required] ones among them.  So
    with an empty argument mapping every pure tool works on its defaults; all
    of them return, except [divide], whose defaults are a zero divisor and
    which raises its own error. *)
Theorem missing_arguments_take_defaults w :
  (forall name d,
     call_tool w (VStr name) (VDict d) =
     call_tool w (VStr name) (VDict (d ++ defaults name)%list)) /\
  forallb every_argument_has_default tools = true /\
  call_tool w (VStr "echo") (VDict []) = Ok (Plain (VStr "")) /\
  call_tool w (VStr "add") (VDict []) = Ok (Plain (VInt 0)) /\
  call_tool w (VStr "subtract") (VDict []) = Ok (Plain (VInt 0)) /\
  call_tool w (VStr "multiply") (VDict []) = Ok (Plain (VInt 0)) /\
  call_tool w (VStr "power") (VDict []) = Ok (Plain (VInt 1)) /\
  call_tool w (VStr "sqrt") (VDict []) = Ok (Plain (VFloat float_zero)) /\
  call_tool w (VStr "uppercase") (VDict []) = Ok (Plain (VStr "")) /\
  call_tool w (VStr "lowercase") (VDict []) = Ok (Plain (VStr "")) /\
  call_tool w (VStr "reverse_string") (VDict []) = Ok (Plain (VStr "")) /\
  call_tool w (VStr "string_length") (VDict []) = Ok (Plain (VInt 0)) /\
  call_tool w (VStr "hash_md5") (VDict []) = Ok (Plain (VStr (md5_hexdigest rt ""))) /\
  call_tool w (VStr "hash_sha256") (VDict []) =
    Ok (Plain (VStr (sha256_hexdigest rt ""))) /\
  call_tool w (VStr "validate_url") (VDict []) = Ok (Plain (VBool false)) /\
  call_tool w (VStr "divide") (VDict []) =
    Raised (Exc ValueError "Division by zero is not allowed").
Proof.
  split; [|split; [vm_compute; reflexivity|repeat split; reflexivity]].
  intros name d. unfold defaults, binding_defaults. cbn [defaults_of].
  unfold MCPServer.call_tool. cbn [py_eq].
  repeat match goal with
         | |- context [String.eqb name ?k] =>
             destruct (String.eqb name k);
             [rewrite ?py_get_default by reflexivity; rewrite ?app_nil_r; reflexivity|]
         end.
  reflexivity.
Qed.

End Dispatcher.

(** ** The receive loop *)

Section ReceiveLoop.
Context (rt : Runtime).

(** The error response of the [except] clauses, by code and message. *)
Lemma error_response_members e :
  Routes.error_response e =
    MCPResponse.with_error "unknown"
      (error_object (decode_error_code e) (decode_error_message e)).
Proof.
  unfold Routes.error_response, decode_error_code, decode_error_message.
  destruct (exc_cls e); reflexivity.
Qed.

(** What [MCPRequest] raises on a decoded value is no decoding error of
    [json]. *)
Lemma schema_violation_class f v e :
  Routes.loads f = Ok v -> Routes.decode rt f = Raised e ->
  exc_cls e <> JSONDecodeError.
Proof.
  intros Hl Hd. unfold Routes.decode in Hd. rewrite Hl in Hd. cbn [bind] in Hd.
  unfold Routes.parse_request in Hd.
  destruct v; try (injection Hd as <-; discriminate).
  destruct (Routes.text_field d "jsonrpc" (Some "2.0")),
           (Routes.text_field d "id" None),
           (Routes.text_field d "method" None),
           (Routes.mapping_field d "params" (Some []));
    try discriminate; injection Hd as <-; discriminate.
Qed.

(** The answer to a frame that fails to decode, on a channel that takes the
    error response. *)
Lemma answer_decode_failure f e :
  Routes.decode rt f = Raised e ->
  Routes.send_response rt f 0 (Routes.error_response e) = Ok tt ->
  Routes.answer rt f = Routes.Handled [ Routes.error_response e ] None.
Proof.
  intros Hd Hs. unfold Routes.answer, Routes.respond. rewrite Hd. cbn [bind].
  unfold Routes.recover. rewrite Hs. reflexivity.
Qed.

(** The answer to a frame that decodes into a request is the dispatcher's,
    on a channel that takes it. *)
Lemma answer_request f request r :
  Routes.decode rt f = Ok request ->
  MCPServer.handle_request rt (Routes.world f) request = Ok r ->
  Routes.send_response rt f 0 r = Ok tt ->
  Routes.answer rt f = Routes.Handled [ r ] None.
Proof.
  intros Hd Hr Hs. unfold Routes.answer, Routes.respond. rewrite Hd. cbn [bind].
  rewrite Hr. unfold Routes.send_response in Hs.
  destruct (Routes.model_dump_json rt r) as [message|e']; [|discriminate].
  cbn [bind] in Hs. rewrite Hs. reflexivity.
Qed.

(** One answered frame: the loop sends the answer and goes on. *)
Lemma receive_loop_answered ws conns f rest r :
  Routes.answer rt f = Routes.Handled [ r ] None ->
  Routes.receive_loop rt ws conns (Routes.Text f :: rest) =
    after_sending r (Routes.receive_loop rt ws conns rest).
Proof.
  intros H. cbn [Routes.receive_loop]. rewrite H. reflexivity.
Qed.

(** C2 (as amended): a frame that fails to decode, whichever exception the
    decoding raised, is answered with one response whose id is ["unknown"],
    provided the channel takes that response; its code is [-32700] when the
    exception is a [json.JSONDecodeError] and [-32603] otherwise, which is
    the case of every JSON value that is not shaped like a request; the loop
    goes on, and a valid request that follows is answered by the dispatcher,
    provided the channel takes that answer. *)
Theorem decode_failure_keeps_the_session ws conns f e valid request rest :
  Routes.decode rt f = Raised e ->
  Routes.decode rt valid = Ok request ->
  let reply :=
    MCPResponse.with_error "unknown"
      (error_object (decode_error_code e) (decode_error_message e)) in
  Routes.send_response rt f 0 reply = Ok tt ->
  (exc_cls e = JSONDecodeError ->
   decode_error_code e = (-32700)%Z /\ decode_error_message e = "Parse error") /\
  (exc_cls e <> JSONDecodeError ->
   decode_error_code e = (-32603)%Z /\
   decode_error_message e = "Internal error: " ++ exc_text e) /\
  (forall v, Routes.loads f = Ok v -> exc_cls e <> JSONDecodeError) /\
  Routes.receive_loop rt ws conns (Routes.Text f :: rest) =
    after_sending reply (Routes.receive_loop rt ws conns rest) /\
  exists r,
    MCPServer.handle_request rt (Routes.world valid) request = Ok r /\
    (Routes.send_response rt valid 0 r = Ok tt ->
     Routes.receive_loop rt ws conns (Routes.Text f :: Routes.Text valid :: rest) =
       after_sending reply (after_sending r (Routes.receive_loop rt ws conns rest))).
Proof.
  intros Hf Hv reply Hs. subst reply.
  rewrite <- error_response_members in *.
  pose proof (answer_decode_failure _ _ Hf Hs) as Ha.
  destruct (handle_request_returns rt (Routes.world valid) request) as (r & Hr & _).
  split; [|split; [|split; [|split]]].
  - intros Hc. unfold decode_error_code, decode_error_message. rewrite Hc.
    split; reflexivity.
  - intros Hc. unfold decode_error_code, decode_error_message.
    destruct (exc_cls e); try (split; reflexivity). contradiction.
  - intros v Hl. exact (schema_violation_class _ _ _ Hl Hf).
  - apply receive_loop_answered, Ha.
  - exists r. split; [exact Hr|]. intros Hs'.
    rewrite (receive_loop_answered _ _ _ _ _ Ha).
    rewrite (receive_loop_answered _ _ _ _ _ (answer_request _ _ _ Hv Hr Hs')).
    reflexivity.
Qed.

End ReceiveLoop.

(** ** The connection registry *)

Lemma list_remove_member ws conns :
  ConnectionManager.contains ws conns = true ->
  exists conns', ConnectionManager.list_remove ws conns = Ok conns' /\
                 List.length conns = S (List.length conns').
Proof.
  induction conns as [|c rest IH]; cbn; [discriminate|].
  destruct (Nat.eqb c ws); cbn.
  - intros _. eexists. split; reflexivity.
  - intros H. destruct (IH H) as (rest' & -> & Hlen). cbn.
    eexists. split; [reflexivity|]. cbn. now rewrite Hlen.
Qed.

Lemma disconnect_returns ws conns :
  exists conns', ConnectionManager.disconnect ws conns = Ok conns'.
Proof.
  unfold ConnectionManager.disconnect.
  destruct (ConnectionManager.contains ws conns) eqn:H.
  - destruct (list_remove_member _ _ H) as (c & -> & _). eauto.
  - eauto.
Qed.

Lemma list_remove_last ws conns :
  ConnectionManager.contains ws conns = false ->
  ConnectionManager.list_remove ws (conns ++ [ws])%list = Ok conns.
Proof.
  induction conns as [|c rest IH]; cbn.
  - intros _. now rewrite Nat.eqb_refl.
  - destruct (Nat.eqb c ws); cbn; [discriminate|].
    intros H. now rewrite (IH H).
Qed.

Lemma contains_last ws conns :
  ConnectionManager.contains ws (conns ++ [ws])%list = true.
Proof.
  induction conns as [|c rest IH]; cbn.
  - now rewrite Nat.eqb_refl.
  - rewrite IH. apply orb_true_r.
Qed.

Lemma run_registry_returns ops :
  forall conns, exists final, run_registry ops conns = Ok final.
Proof.
  induction ops as [|[ws|ws] rest IH]; intros conns; cbn.
  - eauto.
  - apply IH.
  - destruct (disconnect_returns ws conns) as (c & ->). cbn. apply IH.
Qed.

(** C10: [disconnect] returns for every websocket; for one that is not in the
    registry it leaves the registry as it is, so that the second disconnect
    of a connection changes nothing; and after any run of connects and
    disconnects the count that the liveness route reports is not negative. *)
Theorem disconnect_absent_is_noop ws conns ops :
  ConnectionManager.contains ws conns = false ->
  ConnectionManager.disconnect ws conns = Ok conns /\
  ConnectionManager.disconnect ws (ConnectionManager.connect ws conns) = Ok conns /\
  (forall ws' conns', exists after,
      ConnectionManager.disconnect ws' conns' = Ok after) /\
  exists final n,
    run_registry ops conns = Ok final /\
    reported_connections final = Some n /\ 0 <= n.
Proof.
  intros H. repeat split.
  - unfold ConnectionManager.disconnect. now rewrite H.
  - unfold ConnectionManager.disconnect, ConnectionManager.connect.
    rewrite contains_last. now apply list_remove_last.
  - intros. apply disconnect_returns.
  - destruct (run_registry_returns ops conns) as (final & Hf).
    exists final, (Z.of_nat (List.length final)).
    repeat split; [exact Hf|lia].
Qed.

(** ** [random_number] *)

Lemma pow2_pos k : 0 < 2 ^ k \/ (k < 0 /\ 2 ^ k = 0).
Proof.
  destruct (Z.le_gt_cases 0 k) as [H|H].
  - left. apply Z.pow_pos_nonneg; lia.
  - right. split; [lia|]. apply Z.pow_neg_r; lia.
Qed.

Lemma pow2_nonneg_pos k : 0 <= k -> 0 < 2 ^ k.
Proof. intros H. apply Z.pow_pos_nonneg; lia. Qed.

(** Truncation does not depend on how the number is written. *)
Lemma fin_trunc_scale m e k :
  0 <= k -> fin_trunc (m * 2 ^ k) (e - k) = fin_trunc m e.
Proof.
  intros Hk. unfold fin_trunc.
  destruct (Z.leb_spec 0 e) as [He|He], (Z.leb_spec 0 (e - k)) as [Hd|Hd];
    try lia.
  - rewrite <- Z.mul_assoc, <- Z.pow_add_r by lia. f_equal. f_equal. lia.
  - replace k with (e + (- (e - k))) at 1 by lia.
    rewrite Z.pow_add_r by lia. rewrite Z.mul_assoc.
    apply Z.quot_mul.
    pose proof (pow2_nonneg_pos (- (e - k))). lia.
  - replace (- (e - k)) with (- e + k) by lia.
    rewrite Z.pow_add_r by lia.
    apply Z.quot_mul_cancel_r.
    + pose proof (pow2_nonneg_pos (- e)). lia.
    + pose proof (pow2_nonneg_pos k). lia.
Qed.

Lemma fin_trunc_le m1 m2 e : m1 <= m2 -> fin_trunc m1 e <= fin_trunc m2 e.
Proof.
  intros H. unfold fin_trunc. destruct (Z.leb_spec 0 e) as [He|He].
  - apply Z.mul_le_mono_nonneg_r; [|exact H].
    pose proof (pow2_nonneg_pos e). lia.
  - apply Z.quot_le_mono; [|exact H].
    pose proof (pow2_nonneg_pos (- e)). lia.
Qed.

(** Truncation towards zero is monotone. *)
Lemma fin_trunc_monotone m1 e1 m2 e2 :
  fin_compare m1 e1 m2 e2 <> Gt -> fin_trunc m1 e1 <= fin_trunc m2 e2.
Proof.
  unfold fin_compare. set (e := Z.min e1 e2). intros H.
  rewrite <- (fin_trunc_scale m1 e1 (e1 - e)) by lia.
  rewrite <- (fin_trunc_scale m2 e2 (e2 - e)) by lia.
  replace (e1 - (e1 - e)) with e by lia.
  replace (e2 - (e2 - e)) with e by lia.
  apply fin_trunc_le. apply Z.compare_le_iff. exact H.
Qed.

Lemma truncation_monotone x y a b :
  number_le x y = true ->
  truncation x = Some a -> truncation y = Some b -> a <= b.
Proof.
  unfold number_le, num_compare, truncation.
  destruct (real_of_number x) as [| |m1 e1], (real_of_number y) as [| |m2 e2];
    try discriminate.
  cbn [real_compare]. intros H [= <-] [= <-].
  apply fin_trunc_monotone. intros Hgt. rewrite Hgt in H. discriminate.
Qed.

(** [min_val > max_val] and [int(...)] on numbers. *)
Lemma py_gt_numbers lo hi x y :
  as_number lo = Some x -> as_number hi = Some y ->
  py_gt lo hi = Ok (number_gt x y).
Proof.
  unfold py_gt, number_gt.
  destruct lo, hi; cbn [as_number]; try discriminate; intros [= <-] [= <-];
    cbn [py_order as_number]; unfold order_holds;
    destruct (num_compare _ _) as [[| |]|]; reflexivity.
Qed.

Lemma py_int_number v x a :
  as_number v = Some x -> truncation x = Some a -> py_int v = Ok a.
Proof.
  unfold truncation.
  destruct v; cbn; try discriminate; intros [= <-]; cbn.
  - intros [= <-]. unfold fin_trunc. cbn. destruct b; reflexivity.
  - intros [= <-]. unfold fin_trunc. cbn. f_equal. lia.
  - unfold int_of_float. destruct (real_of_float f); try discriminate.
    now intros [= <-].
Qed.

Lemma number_gt_not_le x y : number_le x y = true -> number_gt x y = false.
Proof.
  unfold number_le, number_gt. destruct (num_compare x y) as [[| |]|]; easy.
Qed.

(** [random.randint] on a range that is not empty. *)
Lemma randint_in_range w a b :
  a <= b -> exists n, randint w a b = Ok n /\ a <= n <= b.
Proof.
  intros H. unfold randint, randbelow.
  destruct (Z.ltb_spec 0 (b + 1 - a)) as [Hw|Hw]; [|lia].
  eexists. split; [reflexivity|].
  pose proof (Z.mod_pos_bound (entropy w) (b + 1 - a) Hw). lia.
Qed.

Section RandomNumber.
Context (rt : Runtime).

Lemma random_number_steps w lo hi :
  MCPServer.call_tool rt w (VStr "random_number") (Sample.range_arguments lo hi) =
  (inverted <- py_gt lo hi ;;
   if inverted then
     raise ValueError "Minimum value cannot be greater than maximum value"
   else
     a <- py_int lo ;; b <- py_int hi ;;
     n <- randint w a b ;; Ok (Plain (VInt n))).
Proof. reflexivity. Qed.

(** C7 (as amended): on numbers, an inverted range raises the tool's error;
    a range that is not inverted and whose ends are finite yields an integer
    between the truncations of its ends, which are the ends themselves when
    they are integers. *)
Theorem random_number_range w lo hi x y :
  as_number lo = Some x -> as_number hi = Some y ->
  let result :=
    MCPServer.call_tool rt w (VStr "random_number") (Sample.range_arguments lo hi) in
  (number_gt x y = true ->
   result = raise ValueError "Minimum value cannot be greater than maximum value") /\
  (number_le x y = true ->
   forall a b, truncation x = Some a -> truncation y = Some b ->
   exists n, result = Ok (Plain (VInt n)) /\ a <= n <= b) /\
  (forall a b, lo = VInt a -> hi = VInt b -> a <= b ->
   exists n, result = Ok (Plain (VInt n)) /\ a <= n <= b).
Proof.
  intros Hx Hy result. subst result. rewrite random_number_steps.
  rewrite (py_gt_numbers _ _ _ _ Hx Hy). cbn [bind].
  assert (Hle : number_le x y = true ->
                forall a b, truncation x = Some a -> truncation y = Some b ->
                exists n,
                  (if number_gt x y
                   then raise ValueError
                          "Minimum value cannot be greater than maximum value"
                   else a0 <- py_int lo ;; b0 <- py_int hi ;;
                        n0 <- randint w a0 b0 ;; Ok (Plain (VInt n0)))
                  = Ok (Plain (VInt n)) /\ a <= n <= b).
  { intros Hle a b Ha Hb.
    rewrite (number_gt_not_le _ _ Hle).
    rewrite (py_int_number _ _ _ Hx Ha), (py_int_number _ _ _ Hy Hb). cbn [bind].
    destruct (randint_in_range w a b (truncation_monotone _ _ _ _ Hle Ha Hb))
      as (n & -> & Hn).
    exists n. split; [reflexivity|exact Hn]. }
  split; [|split].
  - intros ->. reflexivity.
  - exact Hle.
  - intros a b -> -> Hab. cbn in Hx, Hy.
    injection Hx as <-. injection Hy as <-.
    apply Hle.
    + unfold number_le, num_compare. cbn. unfold fin_compare. cbn.
      rewrite !Z.mul_1_r.
      destruct (Z.compare_spec a b); try reflexivity; lia.
    + unfold truncation, fin_trunc. cbn. f_equal. lia.
    + unfold truncation, fin_trunc. cbn. f_equal. lia.
Qed.

End RandomNumber.

(** ** Regular expressions: the matcher decides the language *)

Lemma append_nil_r s : s ++ "" = s.
Proof. induction s as [|c s IH]; cbn; [reflexivity|now rewrite IH]. Qed.

Lemma append_assoc s t u : (s ++ t) ++ u = s ++ (t ++ u).
Proof. induction s as [|c s IH]; cbn; [reflexivity|now rewrite IH]. Qed.

Lemma append_eq_nil s t : s ++ t = "" -> s = "" /\ t = "".
Proof. destruct s; cbn; [auto|discriminate]. Qed.

Lemma append_length s t :
  String.length (s ++ t) = (String.length s + String.length t)%nat.
Proof. induction s as [|c s IH]; cbn; [reflexivity|now rewrite IH]. Qed.

Lemma matches_void w : ~ Re.matches Re.Void w.
Proof. inversion 1. Qed.

Lemma matches_eps w : Re.matches Re.Eps w <-> w = "".
Proof. split; [now inversion 1|intros ->; constructor]. Qed.

Lemma matches_class p w :
  Re.matches (Re.Class p) w <-> exists c, w = String c "" /\ p c = true.
Proof.
  split.
  - inversion 1; subst. eauto.
  - intros (c & -> & H). now constructor.
Qed.

Lemma matches_cat r s w :
  Re.matches (Re.Cat r s) w <->
  exists u v, w = u ++ v /\ Re.matches r u /\ Re.matches s v.
Proof.
  split.
  - inversion 1; subst. eauto.
  - intros (u & v & -> & Hu & Hv). now constructor.
Qed.

Lemma matches_alt r s w :
  Re.matches (Re.Alt r s) w <-> Re.matches r w \/ Re.matches s w.
Proof.
  split.
  - inversion 1; subst; auto.
  - intros [H|H]; [now apply Re.MAltL|now apply Re.MAltR].
Qed.

Lemma matches_opt r w :
  Re.matches (Re.Opt r) w <-> w = "" \/ Re.matches r w.
Proof. unfold Re.Opt. now rewrite matches_alt, matches_eps. Qed.

Lemma nullable_matches r : Re.nullable r = true <-> Re.matches r "".
Proof.
  induction r as [| |p|r IHr s IHs|r IHr s IHs|r IHr]; cbn.
  - split; [discriminate|intros H; now apply matches_void in H].
  - split; [constructor|reflexivity].
  - split; [discriminate|].
    intros H. apply matches_class in H. destruct H as (c & H & _). discriminate.
  - rewrite andb_true_iff, IHr, IHs, matches_cat. split.
    + intros [Hr Hs]. exists "", "". auto.
    + intros (u & v & E & Hu & Hv). symmetry in E.
      apply append_eq_nil in E. destruct E as [-> ->]. auto.
  - now rewrite orb_true_iff, IHr, IHs, matches_alt.
  - split; [constructor|reflexivity].
Qed.

(** A non-empty text in a star starts with a non-empty piece. *)
Lemma star_cons_inv r x :
  Re.matches (Re.Star r) x ->
  forall c w, x = String c w ->
  exists u v, w = u ++ v /\ Re.matches r (String c u) /\ Re.matches (Re.Star r) v.
Proof.
  intros H. remember (Re.Star r) as sr eqn:E.
  induction H as [| | | | | |r0 u v Hu _ Hv IHv]; try discriminate.
  injection E as ->. intros c w Hx.
  destruct u as [|a u']; cbn in Hx.
  - now apply IHv.
  - injection Hx as -> <-. eauto.
Qed.

Lemma cat_matches r s w :
  Re.matches (Re.cat r s) w <-> Re.matches (Re.Cat r s) w.
Proof.
  rewrite matches_cat.
  assert (Hvoid_l : forall t, (exists u v, w = u ++ v /\ Re.matches Re.Void u /\
                                       Re.matches t v) <-> Re.matches Re.Void w).
  { intros t. split; [intros (u & v & _ & H & _)|intros H];
      now apply matches_void in H. }
  assert (Hvoid_r : forall t, (exists u v, w = u ++ v /\ Re.matches t u /\
                                       Re.matches Re.Void v) <-> Re.matches Re.Void w).
  { intros t. split; [intros (u & v & _ & _ & H)|intros H];
      now apply matches_void in H. }
  assert (Heps : forall t, (exists u v, w = u ++ v /\ Re.matches Re.Eps u /\
                                    Re.matches t v) <-> Re.matches t w).
  { intros t. split.
    - intros (u & v & -> & Hu & Hv). apply matches_eps in Hu. now subst.
    - intros H. exists "", w. repeat split; [constructor|exact H]. }
  destruct r; cbn [Re.cat];
    try (symmetry; apply Hvoid_l);
    destruct s; cbn [Re.cat];
    try (symmetry; apply Hvoid_r); try (symmetry; apply Heps);
    now rewrite matches_cat.
Qed.

Lemma alt_matches r s w :
  Re.matches (Re.alt r s) w <-> Re.matches (Re.Alt r s) w.
Proof.
  rewrite matches_alt.
  pose proof (matches_void w) as Hv.
  destruct r; cbn [Re.alt]; try tauto;
    destruct s; cbn [Re.alt]; try tauto; now rewrite matches_alt.
Qed.

Lemma deriv_matches r : forall c w,
  Re.matches (Re.deriv c r) w <-> Re.matches r (String c w).
Proof.
  induction r as [| |p|r IHr s IHs|r IHr s IHs|r IHr]; intros c w; cbn [Re.deriv].
  - split; intros H; now apply matches_void in H.
  - split; intros H; [now apply matches_void in H|].
    apply matches_eps in H. discriminate.
  - rewrite matches_class. destruct (p c) eqn:Hp.
    + rewrite matches_eps. split.
      * intros ->. eauto.
      * intros (d & [= -> ->] & _). reflexivity.
    + split; [intros H; now apply matches_void in H|].
      intros (d & [= -> ->] & H). congruence.
  - assert (Hcat : Re.matches (Re.cat (Re.deriv c r) s) w \/
                   (Re.matches r "" /\ Re.matches s (String c w)) <->
                   Re.matches (Re.Cat r s) (String c w)).
    { rewrite cat_matches, !matches_cat. split.
      - intros [(u & v & -> & Hu & Hv)|[Hr Hs]].
        + exists (String c u), v. rewrite <- IHr. auto.
        + exists "", (String c w). auto.
      - intros (u & v & E & Hu & Hv). destruct u as [|a u']; cbn in E.
        + right. subst v. auto.
        + injection E as <- ->. left. exists u', v. rewrite IHr. auto. }
    destruct (Re.nullable r) eqn:Hn.
    + rewrite alt_matches, matches_alt, IHs, <- Hcat.
      apply nullable_matches in Hn. tauto.
    + rewrite <- Hcat. split; [auto|].
      intros [H|[H _]]; [exact H|].
      apply nullable_matches in H. congruence.
  - now rewrite alt_matches, !matches_alt, IHr, IHs.
  - rewrite cat_matches, matches_cat. split.
    + intros (u & v & -> & Hu & Hv). apply IHr in Hu.
      change (String c (u ++ v)) with (String c u ++ v). now constructor.
    + intros H. destruct (star_cons_inv _ _ H c w eq_refl) as (u & v & -> & Hu & Hv).
      exists u, v. rewrite IHr. auto.
Qed.

(** [matchb] decides membership in the language. *)
Lemma matchb_matches w : forall r,
  Re.matchb r w = true <-> Re.matches r w.
Proof.
  induction w as [|c w IH]; intros r; cbn [Re.matchb].
  - apply nullable_matches.
  - now rewrite IH, deriv_matches.
Qed.

Lemma drop_final_newline_spec s t :
  Re.drop_final_newline s = Some t <-> s = t ++ newline.
Proof.
  revert t. induction s as [|c s IH]; intros t.
  - cbn. split; [discriminate|]. destruct t; discriminate.
  - cbn [Re.drop_final_newline]. destruct s as [|d s'].
    + destruct (Ascii.eqb_spec c "010"%char) as [->|Hc].
      * split.
        -- now intros [= <-].
        -- destruct t as [|a [|b t']]; cbn; try discriminate; reflexivity.
      * split; [discriminate|].
        destruct t as [|a t]; cbn.
        -- intros [= E]. congruence.
        -- intros [= _ E]. destruct t; discriminate.
    + destruct (Re.drop_final_newline (String d s')) as [t0|] eqn:E.
      * split.
        -- intros [= <-]. cbn. f_equal. now apply IH.
        -- destruct t as [|a t]; cbn; [discriminate|].
           intros [= <- Ht]. apply IH in Ht. congruence.
      * split; [discriminate|].
        destruct t as [|a t]; cbn; [discriminate|].
        intros [= <- Ht]. apply IH in Ht. discriminate.
Qed.

Lemma append_newline_injective t t' : t ++ newline = t' ++ newline -> t = t'.
Proof.
  revert t'. induction t as [|a t IH]; intros [|b t']; cbn; try reflexivity.
  - intros [= _ E]. destruct t'; discriminate.
  - intros [= _ E]. destruct t; discriminate.
  - intros [= -> E]. f_equal. now apply IH.
Qed.

Lemma anchored_match_spec r s :
  Re.anchored_match r s = true <->
  Re.matches r s \/ exists t, s = t ++ newline /\ Re.matches r t.
Proof.
  unfold Re.anchored_match. rewrite orb_true_iff, matchb_matches.
  destruct (Re.drop_final_newline s) as [t|] eqn:E.
  - rewrite matchb_matches. apply drop_final_newline_spec in E. split.
    + intros [H|H]; [now left|right; eauto].
    + intros [H|(t' & E' & H)]; [now left|right].
      rewrite E in E'. apply append_newline_injective in E'. now subst.
  - split.
    + intros [H|H]; [now left|discriminate].
    + intros [H|(t & Et & H)]; [now left|].
      apply drop_final_newline_spec in Et. congruence.
Qed.

(** ** The language of the URL pattern *)

Lemma all_chars_app p u v :
  UrlGrammar.all_chars p (u ++ v) =
  (UrlGrammar.all_chars p u && UrlGrammar.all_chars p v)%bool.
Proof.
  induction u as [|c u IH]; cbn; [reflexivity|].
  now rewrite IH, andb_assoc.
Qed.

Lemma matches_star_class p w :
  Re.matches (Re.Star (Re.Class p)) w <-> UrlGrammar.all_chars p w = true.
Proof.
  split.
  - intros H. remember (Re.Star (Re.Class p)) as sr eqn:E.
    induction H as [| | | | | |r0 u v Hu _ Hv IHv]; try discriminate.
    + reflexivity.
    + injection E as ->. apply matches_class in Hu.
      destruct Hu as (c & -> & Hc). cbn. rewrite Hc. now apply IHv.
  - induction w as [|c w IH]; cbn.
    + intros _. constructor.
    + intros H. apply andb_true_iff in H. destruct H as [Hc Hw].
      change (String c w) with (String c "" ++ w).
      constructor; [now constructor|now apply IH].
Qed.

Lemma matches_plus_class p w :
  Re.matches (Re.Plus (Re.Class p)) w <->
  w <> "" /\ UrlGrammar.all_chars p w = true.
Proof.
  unfold Re.Plus. rewrite matches_cat. split.
  - intros (u & v & -> & Hu & Hv).
    apply matches_class in Hu. destruct Hu as (c & -> & Hc).
    apply matches_star_class in Hv. cbn. rewrite Hc, Hv. split; [discriminate|reflexivity].
  - intros [Hne H]. destruct w as [|c w]; [congruence|].
    cbn in H. apply andb_true_iff in H. destruct H as [Hc Hw].
    exists (String c ""), w. repeat split.
    + apply matches_class. eauto.
    + now apply matches_star_class.
Qed.

Lemma matches_upto_class n p : forall w,
  Re.matches (Re.UpTo n (Re.Class p)) w <->
  (String.length w <= n)%nat /\ UrlGrammar.all_chars p w = true.
Proof.
  induction n as [|n IH]; intros w; cbn [Re.UpTo].
  - rewrite matches_eps. split.
    + intros ->. cbn. auto.
    + intros [H _]. destruct w; [reflexivity|cbn in H; lia].
  - rewrite matches_opt, matches_cat. split.
    + intros [->|(u & v & -> & Hu & Hv)].
      * cbn. split; [lia|reflexivity].
      * apply matches_class in Hu. destruct Hu as (c & -> & Hc).
        apply IH in Hv. destruct Hv as [Hl Hv]. cbn. rewrite Hc, Hv.
        split; [lia|reflexivity].
    + intros [Hl H]. destruct w as [|c w]; [now left|right].
      cbn in Hl, H. apply andb_true_iff in H. destruct H as [Hc Hw].
      exists (String c ""), w. repeat split.
      * apply matches_class. eauto.
      * apply IH. split; [lia|exact Hw].
Qed.

Lemma matches_atleast_class lo rest p : forall w,
  Re.matches (Re.AtLeast lo rest (Re.Class p)) w <->
  exists u v, w = u ++ v /\ String.length u = lo /\
              UrlGrammar.all_chars p u = true /\ Re.matches rest v.
Proof.
  induction lo as [|lo IH]; intros w; cbn [Re.AtLeast].
  - split.
    + intros H. exists "", w. auto.
    + intros (u & v & -> & Hl & _ & Hv). destruct u; [exact Hv|discriminate].
  - rewrite matches_cat. split.
    + intros (a & b & -> & Ha & Hb).
      apply matches_class in Ha. destruct Ha as (c & -> & Hc).
      apply IH in Hb. destruct Hb as (u & v & -> & Hl & Hu & Hv).
      exists (String c u), v. cbn. rewrite Hc, Hu, Hl. auto.
    + intros (u & v & -> & Hl & Hu & Hv).
      destruct u as [|c u]; [discriminate|].
      cbn in Hl, Hu. apply andb_true_iff in Hu. destruct Hu as [Hc Hu].
      exists (String c ""), (u ++ v). repeat split.
      * apply matches_class. eauto.
      * apply IH. exists u, v. repeat split; auto.
Qed.

Lemma split_at n : forall w,
  (n <= String.length w)%nat ->
  exists u v, w = u ++ v /\ String.length u = n.
Proof.
  induction n as [|n IH]; intros w H.
  - exists "", w. auto.
  - destruct w as [|c w]; [cbn in H; lia|].
    destruct (IH w) as (u & v & -> & Hl); [cbn in H; lia|].
    exists (String c u), v. cbn. auto.
Qed.

Lemma matches_repeat_class lo hi p w :
  (lo <= hi)%nat ->
  Re.matches (Re.Repeat lo hi (Re.Class p)) w <->
  (lo <= String.length w <= hi)%nat /\ UrlGrammar.all_chars p w = true.
Proof.
  intros Hlh. unfold Re.Repeat. rewrite matches_atleast_class. split.
  - intros (u & v & -> & Hl & Hu & Hv).
    apply matches_upto_class in Hv. destruct Hv as [Hvl Hv].
    rewrite append_length, all_chars_app, Hu, Hv. split; [lia|reflexivity].
  - intros [Hl Hw].
    destruct (split_at lo w) as (u & v & -> & Hu); [lia|].
    rewrite all_chars_app in Hw. apply andb_true_iff in Hw. destruct Hw as [Hpu Hpv].
    rewrite append_length in Hl.
    exists u, v. repeat split; auto.
    apply matches_upto_class. split; [lia|exact Hpv].
Qed.

Lemma matches_chr c w :
  Re.matches (Re.Chr c) w <->
  exists d, w = String d "" /\ char_lower d = char_lower c.
Proof.
  unfold Re.Chr. rewrite matches_class. split; intros (d & -> & H); exists d;
    (split; [reflexivity|]); now apply Ascii.eqb_eq.
Qed.

Lemma str_lower_cons c s :
  str_lower (String c s) = String (char_lower c) (str_lower s).
Proof. reflexivity. Qed.

Lemma str_lower_app s t : str_lower (s ++ t) = str_lower s ++ str_lower t.
Proof.
  induction s as [|c s IH]; [reflexivity|].
  cbn [append]. rewrite !str_lower_cons, IH. reflexivity.
Qed.

Lemma matches_lit t : forall w,
  Re.matches (Re.Lit t) w <-> UrlGrammar.same_letters w t.
Proof.
  unfold UrlGrammar.same_letters.
  induction t as [|c t IH]; intros w; cbn [Re.Lit].
  - rewrite matches_eps. split; [now intros ->|].
    destruct w; [reflexivity|discriminate].
  - rewrite matches_cat, str_lower_cons. split.
    + intros (u & v & -> & Hu & Hv).
      apply matches_chr in Hu. destruct Hu as (d & -> & Hd).
      apply IH in Hv. cbn [append]. rewrite str_lower_cons. congruence.
    + destruct w as [|d w]; [discriminate|].
      rewrite str_lower_cons. intros [= Hd Hw].
      exists (String d ""), w. repeat split.
      * apply matches_chr. eauto.
      * now apply IH.
Qed.

(** Lower-casing leaves a character that is not an upper-case letter as it
    is, and never yields one. *)
Lemma char_lower_not_upper c : is_upper (char_lower c) = false.
Proof. destruct c as [[] [] [] [] [] [] [] []]; reflexivity. Qed.

Lemma char_lower_fixed c : is_upper c = false -> char_lower c = c.
Proof. unfold char_lower. now intros ->. Qed.

Lemma char_lower_is_lower c : is_upper c = true -> is_lower (char_lower c) = true.
Proof.
  destruct c as [[] [] [] [] [] [] [] []]; vm_compute; intros H;
    (reflexivity || discriminate H).
Qed.

(** A character that is no letter is matched only by itself. *)
Lemma char_lower_eq_non_letter c d :
  is_alpha c = false -> char_lower d = char_lower c -> d = c.
Proof.
  unfold is_alpha. intros Hc. apply orb_false_iff in Hc. destruct Hc as [Hu Hl].
  rewrite (char_lower_fixed c Hu). intros H.
  destruct (is_upper d) eqn:Hd.
  - apply char_lower_is_lower in Hd. congruence.
  - now rewrite (char_lower_fixed d Hd) in H.
Qed.

Lemma matches_chr_non_letter c w :
  is_alpha c = false ->
  Re.matches (Re.Chr c) w <-> w = String c "".
Proof.
  intros Hc. rewrite matches_chr. split.
  - intros (d & -> & H). f_equal. now apply char_lower_eq_non_letter.
  - intros ->. eauto.
Qed.

Lemma label_dot_language w :
  Re.matches label_dot w <-> exists l, UrlGrammar.label l /\ w = l ++ ".".
Proof.
  unfold label_dot, UrlGrammar.label.
  rewrite matches_cat. split.
  - intros (a & bc & -> & Ha & Hbc).
    apply matches_class in Ha. destruct Ha as (first & -> & Hfirst).
    apply matches_cat in Hbc. destruct Hbc as (b & c & -> & Hb & Hc).
    apply matches_chr_non_letter in Hc; [subst c|reflexivity].
    exists (String first b). split; [|reflexivity].
    exists first, b. repeat split; [exact Hfirst|].
    apply matches_opt in Hb. destruct Hb as [->|Hb]; [now left|right].
    apply matches_cat in Hb. destruct Hb as (m & z & -> & Hm & Hz).
    apply matches_repeat_class in Hm; [|lia]. destruct Hm as [[_ Hml] Hm].
    apply matches_class in Hz. destruct Hz as (last & -> & Hlast).
    exists m, last. auto.
  - intros (l & (first & rest & -> & Hfirst & Hrest) & ->).
    exists (String first ""), (rest ++ "."). repeat split.
    + apply matches_class. eauto.
    + apply matches_cat. exists rest, ".". repeat split.
      * apply matches_opt. destruct Hrest as [->|(m & last & -> & Hl & Hm & Hlast)];
          [now left|right].
        apply matches_cat. exists m, (String last ""). repeat split.
        -- apply matches_repeat_class; [lia|]. split; [lia|exact Hm].
        -- apply matches_class. eauto.
      * now apply matches_chr_non_letter.
Qed.

Lemma star_label_dot_language w :
  Re.matches (Re.Star label_dot) w <->
  exists labels, Forall UrlGrammar.label labels /\ w = UrlGrammar.dotted labels.
Proof.
  split.
  - intros H. remember (Re.Star label_dot) as sr eqn:E.
    induction H as [| | | | | |r0 u v Hu _ Hv IHv]; try discriminate.
    + exists []. auto.
    + injection E as ->.
      apply label_dot_language in Hu. destruct Hu as (l & Hl & ->).
      destruct (IHv eq_refl) as (ls & Hls & ->).
      exists (l :: ls). split; [now constructor|].
      cbn. now rewrite append_assoc.
  - intros (ls & Hls & ->). induction Hls as [|l ls Hl _ IH]; cbn.
    + constructor.
    + change (l ++ String "." (UrlGrammar.dotted ls))
        with (l ++ "." ++ UrlGrammar.dotted ls).
      rewrite <- append_assoc. constructor; [|exact IH].
      apply label_dot_language. eauto.
Qed.

Lemma domain_language h :
  Re.matches domain_name h <-> UrlGrammar.domain h.
Proof.
  unfold domain_name, UrlGrammar.domain, Re.Plus.
  rewrite matches_cat. split.
  - intros (a & b & -> & Ha & Hb).
    apply matches_cat in Ha. destruct Ha as (u & v & -> & Hu & Hv).
    apply label_dot_language in Hu. destruct Hu as (l & Hl & ->).
    apply star_label_dot_language in Hv. destruct Hv as (ls & Hls & ->).
    apply matches_cat in Hb. destruct Hb as (tld & dot & -> & Ht & Hd).
    apply matches_repeat_class in Ht; [|lia]. destruct Ht as [Htl Ht].
    exists (l :: ls), tld, dot. repeat split; try tauto.
    + discriminate.
    + now constructor.
    + apply matches_opt in Hd. destruct Hd as [->|Hd]; [now left|right].
      apply matches_chr_non_letter in Hd; [exact Hd|reflexivity].
    + cbn. now rewrite !append_assoc.
  - intros (labels & tld & dot & Hne & Hls & Htl & Ht & Hd & ->).
    destruct labels as [|l ls]; [congruence|].
    inversion Hls as [|? ? Hl Hls']; subst.
    exists (UrlGrammar.dotted (l :: ls)), (tld ++ dot). repeat split.
    + apply matches_cat. exists (l ++ "."), (UrlGrammar.dotted ls). repeat split.
      * cbn. now rewrite append_assoc.
      * apply label_dot_language. eauto.
      * apply star_label_dot_language. eauto.
    + apply matches_cat. exists tld, dot. repeat split.
      * apply matches_repeat_class; [lia|]. auto.
      * apply matches_opt. destruct Hd as [->| ->]; [now left|right].
        now apply matches_chr_non_letter.
Qed.

Lemma octet_language o : Re.matches octet o <-> UrlGrammar.octet o.
Proof. unfold octet. apply matches_repeat_class. lia. Qed.

Lemma dot_then r w :
  Re.matches (Re.Cat (Re.Chr ".") r) w <-> exists v, w = "." ++ v /\ Re.matches r v.
Proof.
  rewrite matches_cat. split.
  - intros (u & v & -> & Hu & Hv).
    apply matches_chr_non_letter in Hu; [subst u|reflexivity]. eauto.
  - intros (v & -> & Hv). exists ".", v. repeat split; [|exact Hv].
    now apply matches_chr_non_letter.
Qed.

Lemma ipv4_language h : Re.matches ipv4 h <-> UrlGrammar.ipv4 h.
Proof.
  unfold ipv4, UrlGrammar.ipv4. split.
  - intros H.
    apply matches_cat in H. destruct H as (a & r1 & -> & Ha & H).
    apply dot_then in H. destruct H as (r2 & -> & H).
    apply matches_cat in H. destruct H as (b & r3 & -> & Hb & H).
    apply dot_then in H. destruct H as (r4 & -> & H).
    apply matches_cat in H. destruct H as (c & r5 & -> & Hc & H).
    apply dot_then in H. destruct H as (d & -> & Hd).
    exists a, b, c, d. rewrite <- !octet_language. auto.
  - intros (a & b & c & d & Ha & Hb & Hc & Hd & ->).
    rewrite <- octet_language in Ha, Hb, Hc, Hd.
    apply matches_cat. exists a, ("." ++ b ++ "." ++ c ++ "." ++ d).
    repeat split; [exact Ha|].
    apply dot_then. eexists. split; [reflexivity|].
    apply matches_cat. exists b, ("." ++ c ++ "." ++ d).
    repeat split; [exact Hb|].
    apply dot_then. eexists. split; [reflexivity|].
    apply matches_cat. exists c, ("." ++ d).
    repeat split; [exact Hc|].
    apply dot_then. eauto.
Qed.

Lemma host_language h : Re.matches host h <-> UrlGrammar.host h.
Proof.
  unfold host, UrlGrammar.host.
  now rewrite !matches_alt, domain_language, matches_lit, ipv4_language.
Qed.

Lemma port_language p : Re.matches port p <-> UrlGrammar.port p.
Proof.
  unfold port, UrlGrammar.port. rewrite matches_opt, matches_cat. split.
  - intros [->|(u & v & -> & Hu & Hv)]; [now left|right].
    apply matches_chr_non_letter in Hu; [subst u|reflexivity].
    apply matches_plus_class in Hv. destruct Hv as [Hne Hv].
    exists v. auto.
  - intros [->|(ds & Hne & Hds & ->)]; [now left|right].
    exists ":", ds. repeat split.
    + now apply matches_chr_non_letter.
    + now apply matches_plus_class.
Qed.

Lemma path_language q : Re.matches path q <-> UrlGrammar.path_or_query q.
Proof.
  unfold path, UrlGrammar.path_or_query.
  rewrite matches_alt, matches_opt, matches_cat. split.
  - intros [[->|H]|(u & v & -> & Hu & Hv)].
    + now left.
    + right. left. apply matches_chr_non_letter in H; [exact H|reflexivity].
    + right. right.
      apply matches_class in Hu. destruct Hu as (lead & -> & Hlead).
      apply matches_plus_class in Hv. destruct Hv as [Hne Hv].
      exists lead, v. auto.
  - intros [->|[->|(lead & rest & Hlead & Hne & Hrest & ->)]].
    + left. now left.
    + left. right. now apply matches_chr_non_letter.
    + right. exists (String lead ""), rest. repeat split.
      * apply matches_class. eauto.
      * now apply matches_plus_class.
Qed.

Lemma scheme_language s :
  Re.matches (Re.Cat (Re.Lit "http") (Re.Opt (Re.Chr "s"))) s <->
  UrlGrammar.scheme s.
Proof.
  unfold UrlGrammar.scheme. rewrite <- !matches_lit, matches_cat. split.
  - intros (a & b & -> & Ha & Hb).
    apply matches_opt in Hb. destruct Hb as [->|Hb].
    + left. now rewrite append_nil_r.
    + right. apply matches_lit. apply matches_lit in Ha.
      apply matches_chr in Hb. destruct Hb as (d & -> & Hd).
      unfold UrlGrammar.same_letters in *.
      rewrite str_lower_app, Ha. cbn [str_lower string_map]. now rewrite Hd.
  - intros [H|H].
    + exists s, "". rewrite append_nil_r. repeat split; [exact H|].
      apply matches_opt. now left.
    + apply matches_lit in H. unfold UrlGrammar.same_letters in H.
      destruct s as [|c1 [|c2 [|c3 [|c4 [|c5 [|c6 s]]]]]]; try discriminate.
      rewrite !str_lower_cons in H. injection H as H1 H2 H3 H4 H5.
      exists (String c1 (String c2 (String c3 (String c4 "")))), (String c5 "").
      repeat split.
      * apply matches_lit. unfold UrlGrammar.same_letters.
        rewrite !str_lower_cons. congruence.
      * apply matches_opt. right. apply matches_chr. eauto.
Qed.

Lemma separator_language w : Re.matches (Re.Lit "://") w <-> w = "://".
Proof.
  rewrite matches_lit. unfold UrlGrammar.same_letters. split; [|now intros ->].
  destruct w as [|c1 [|c2 [|c3 [|c4 w]]]]; try discriminate.
  rewrite !str_lower_cons. intros [= H1 H2 H3].
  apply (char_lower_eq_non_letter ":"%char) in H1; [|reflexivity].
  apply (char_lower_eq_non_letter "/"%char) in H2; [|reflexivity].
  apply (char_lower_eq_non_letter "/"%char) in H3; [|reflexivity].
  now subst.
Qed.

(** The pattern denotes the grammar. *)
Lemma url_language u : Re.matches url_pattern u <-> UrlGrammar.url u.
Proof.
  unfold url_pattern, UrlGrammar.url. split.
  - intros H.
    apply matches_cat in H. destruct H as (a & r1 & -> & Ha & H).
    apply matches_cat in H. destruct H as (b & r2 & -> & Hb & H).
    apply matches_cat in H. destruct H as (c & r3 & -> & Hc & H).
    apply matches_cat in H. destruct H as (h & r4 & -> & Hh & H).
    apply matches_cat in H. destruct H as (p & q & -> & Hp & Hq).
    apply separator_language in Hc. subst c.
    exists (a ++ b), h, p, q. repeat split.
    + apply scheme_language. apply matches_cat. eauto.
    + now apply host_language.
    + now apply port_language.
    + now apply path_language.
    + now rewrite !append_assoc.
  - intros (s & h & p & q & Hs & Hh & Hp & Hq & ->).
    apply scheme_language in Hs. apply matches_cat in Hs.
    destruct Hs as (a & b & -> & Ha & Hb).
    rewrite append_assoc.
    apply matches_cat. exists a, (b ++ "://" ++ h ++ p ++ q). repeat split; [exact Ha|].
    apply matches_cat. exists b, ("://" ++ h ++ p ++ q). repeat split; [exact Hb|].
    apply matches_cat. exists "://", (h ++ p ++ q). repeat split.
    + now apply separator_language.
    + apply matches_cat. exists h, (p ++ q). repeat split.
      * now apply host_language.
      * apply matches_cat. exists p, q. repeat split.
        -- now apply port_language.
        -- now apply path_language.
Qed.

(** ** Case-insensitivity of the matcher *)

Lemma class_case_blind_spec p c :
  class_case_blind p = true ->
  p (char_upper c) = p c /\ p (char_lower c) = p c.
Proof.
  unfold class_case_blind. rewrite forallb_forall. intros H.
  specialize (H (nat_of_ascii c)).
  rewrite ascii_nat_embedding in H. cbv zeta in H.
  assert (Hin : In (nat_of_ascii c) (seq 0 256)).
  { apply in_seq. pose proof (nat_ascii_bounded c). lia. }
  apply H in Hin. apply andb_true_iff in Hin. destruct Hin as [Hu Hl].
  split; now apply Bool.eqb_prop.
Qed.

Lemma case_blind_cat r s :
  case_blind r = true -> case_blind s = true -> case_blind (Re.cat r s) = true.
Proof.
  intros Hr Hs. destruct r; cbn [Re.cat]; try reflexivity;
    destruct s; cbn [Re.cat]; try reflexivity; try assumption;
    cbn [case_blind] in *; now rewrite ?Hr, ?Hs.
Qed.

Lemma case_blind_alt r s :
  case_blind r = true -> case_blind s = true -> case_blind (Re.alt r s) = true.
Proof.
  intros Hr Hs. destruct r; cbn [Re.alt]; try assumption;
    destruct s; cbn [Re.alt]; try assumption;
    cbn [case_blind] in *; now rewrite ?Hr, ?Hs.
Qed.

Lemma case_blind_deriv c r :
  case_blind r = true -> case_blind (Re.deriv c r) = true.
Proof.
  induction r as [| |p|r IHr s IHs|r IHr s IHs|r IHr]; cbn [Re.deriv case_blind];
    intros H; try reflexivity.
  - now destruct (p c).
  - apply andb_true_iff in H. destruct H as [Hr Hs].
    destruct (Re.nullable r).
    + apply case_blind_alt; [apply case_blind_cat|]; auto.
    + apply case_blind_cat; auto.
  - apply andb_true_iff in H. destruct H as [Hr Hs].
    apply case_blind_alt; auto.
  - apply case_blind_cat; auto.
Qed.

Section CaseFolding.
Variable fold : ascii -> ascii.
Hypothesis fold_blind :
  forall p c, class_case_blind p = true -> p (fold c) = p c.
Hypothesis fold_newline :
  forall c, Ascii.eqb (fold c) "010"%char = Ascii.eqb c "010"%char.

Lemma deriv_fold c r :
  case_blind r = true -> Re.deriv (fold c) r = Re.deriv c r.
Proof.
  induction r as [| |p|r IHr s IHs|r IHr s IHs|r IHr]; cbn [Re.deriv case_blind];
    intros H; try reflexivity.
  - now rewrite fold_blind.
  - apply andb_true_iff in H. destruct H as [Hr Hs]. now rewrite IHr, IHs.
  - apply andb_true_iff in H. destruct H as [Hr Hs]. now rewrite IHr, IHs.
  - now rewrite IHr.
Qed.

Lemma matchb_fold s : forall r,
  case_blind r = true -> Re.matchb r (string_map fold s) = Re.matchb r s.
Proof.
  induction s as [|c s IH]; intros r Hr; cbn [string_map Re.matchb].
  - reflexivity.
  - rewrite deriv_fold by exact Hr. apply IH. now apply case_blind_deriv.
Qed.

Lemma drop_final_newline_fold s :
  Re.drop_final_newline (string_map fold s) =
  option_map (string_map fold) (Re.drop_final_newline s).
Proof.
  induction s as [|c s IH]; [reflexivity|].
  cbn [string_map Re.drop_final_newline]. destruct s as [|d s'].
  - cbn [string_map]. rewrite fold_newline.
    now destruct (Ascii.eqb c "010"%char).
  - change (string_map fold (String d s'))
      with (String (fold d) (string_map fold s')) in *.
    change (string_map fold (String d s'))
      with (String (fold d) (string_map fold s')).
    rewrite IH. now destruct (Re.drop_final_newline (String d s')).
Qed.

Lemma anchored_match_fold r s :
  case_blind r = true ->
  Re.anchored_match r (string_map fold s) = Re.anchored_match r s.
Proof.
  intros Hr. unfold Re.anchored_match.
  rewrite matchb_fold by exact Hr. rewrite drop_final_newline_fold.
  destruct (Re.drop_final_newline s) as [t|]; cbn [option_map]; [|reflexivity].
  now rewrite matchb_fold.
Qed.

End CaseFolding.

Lemma url_pattern_case_blind : case_blind url_pattern = true.
Proof. vm_compute. reflexivity. Qed.

Lemma char_upper_newline c :
  Ascii.eqb (char_upper c) "010"%char = Ascii.eqb c "010"%char.
Proof. destruct c as [[] [] [] [] [] [] [] []]; reflexivity. Qed.

Lemma char_lower_newline c :
  Ascii.eqb (char_lower c) "010"%char = Ascii.eqb c "010"%char.
Proof. destruct c as [[] [] [] [] [] [] [] []]; reflexivity. Qed.

Lemma url_match_upper s :
  Re.anchored_match url_pattern (str_upper s) = Re.anchored_match url_pattern s.
Proof.
  apply anchored_match_fold.
  - intros p c H. now apply class_case_blind_spec.
  - apply char_upper_newline.
  - apply url_pattern_case_blind.
Qed.

Lemma url_match_lower s :
  Re.anchored_match url_pattern (str_lower s) = Re.anchored_match url_pattern s.
Proof.
  apply anchored_match_fold.
  - intros p c H. now apply class_case_blind_spec.
  - apply char_lower_newline.
  - apply url_pattern_case_blind.
Qed.

(** X19: what [validate_url] answers on an ASCII text: whether the text, or
    the text without one final newline, is in the URL grammar. *)
Lemma validate_url_language rt w s :
  ascii_text s = true ->
  exists b,
    MCPServer.call_tool rt w (VStr "validate_url") (url_argument (VStr s)) =
      Ok (Plain (VBool b)) /\
    (b = true <->
     UrlGrammar.url s \/ exists t, s = t ++ newline /\ UrlGrammar.url t).
Proof.
  intros _.
  exists (Re.anchored_match url_pattern s). split; [reflexivity|].
  rewrite anchored_match_spec. now rewrite !url_language; setoid_rewrite url_language.
Qed.

(** C8 (as amended): on every ASCII text [validate_url] returns a boolean,
    the same for the text in upper case and in lower case; on a text that
    does not end with a newline the boolean is true exactly when the text is
    in the URL grammar, whose addresses are four groups of one to three
    digits of any value. *)
Theorem validate_url_decides_the_grammar rt w s :
  ascii_text s = true ->
  exists b,
    MCPServer.call_tool rt w (VStr "validate_url") (url_argument (VStr s)) =
      Ok (Plain (VBool b)) /\
    MCPServer.call_tool rt w (VStr "validate_url") (url_argument (VStr (str_upper s))) =
      Ok (Plain (VBool b)) /\
    MCPServer.call_tool rt w (VStr "validate_url") (url_argument (VStr (str_lower s))) =
      Ok (Plain (VBool b)) /\
    (ends_with_newline s = false -> (b = true <-> UrlGrammar.url s)) /\
    MCPServer.call_tool rt w (VStr "validate_url")
      (url_argument (VStr "http://999.999.999.999")) = Ok (Plain (VBool true)).
Proof.
  intros _.
  exists (Re.anchored_match url_pattern s). split; [reflexivity|].
  split; [|split; [|split]].
  - change (MCPServer.call_tool rt w (VStr "validate_url")
              (url_argument (VStr (str_upper s))))
      with (Ok (A := tool_value)
              (Plain (VBool (Re.anchored_match url_pattern (str_upper s))))).
    now rewrite url_match_upper.
  - change (MCPServer.call_tool rt w (VStr "validate_url")
              (url_argument (VStr (str_lower s))))
      with (Ok (A := tool_value)
              (Plain (VBool (Re.anchored_match url_pattern (str_lower s))))).
    now rewrite url_match_lower.
  - unfold ends_with_newline. intros Hend.
    rewrite anchored_match_spec, url_language. split; [|now left].
    intros [H|(t & E & _)]; [exact H|].
    apply drop_final_newline_spec in E. rewrite E in Hend. discriminate.
  - change (MCPServer.call_tool rt w (VStr "validate_url")
              (url_argument (VStr "http://999.999.999.999")))
      with (Ok (A := tool_value)
              (Plain (VBool (Re.anchored_match url_pattern "http://999.999.999.999")))).
    assert (E : Re.anchored_match url_pattern "http://999.999.999.999" = true)
      by (vm_compute; reflexivity).
    now rewrite E.
Qed.

(** ** Closed instances *)

(** C1, as stated, fails on the answer to an unknown method: its [result]
    member and its [error] member are both set. *)
Lemma error_response_carries_result :
  exists r,
    MCPServer.handle_request Sample.runtime Sample.world Sample.ping_request = Ok r /\
    member_set (MCPResponse.model_dump r) "result" = true /\
    member_set (MCPResponse.model_dump r) "error" = true /\
    exactly_one_of_result_error r = false.
Proof.
  eexists. split; [reflexivity|]. repeat split.
Qed.

(** C2, as stated, fails on a JSON object without [id]: the answer carries
    [-32603], not [-32700]. *)
Lemma schema_violation_is_an_internal_error :
  map error_code
    (Routes.sent
       (Routes.websocket_endpoint Sample.runtime 1%nat []
          [ Routes.Text Sample.frame_without_id ])) = [ Some (-32603) ] /\
  Some (-32603) <> Some (-32700).
Proof.
  split; [reflexivity|discriminate].
Qed.

Lemma decode_failure_keeps_the_session_witness :
  Routes.receive_loop Sample.runtime 1%nat [1%nat]
    [ Routes.Text Sample.frame_without_id ] =
  after_sending
    (MCPResponse.with_error "unknown"
       (error_object (-32603) "Internal error: 1 validation error for MCPRequest"))
    (Routes.receive_loop Sample.runtime 1%nat [1%nat] []).
Proof.
  exact (proj1 (proj2 (proj2 (proj2
    (decode_failure_keeps_the_session Sample.runtime 1%nat [1%nat]
       Sample.frame_without_id
       (Exc ValidationError "1 validation error for MCPRequest")
       Sample.initialize_frame Sample.initialize_request []
       eq_refl eq_refl eq_refl))))).
Defined.

(** C4, as stated, fails on a name that is a list: it is not in the registry
    and no tool runs, yet the answer carries [-32603]. *)
Lemma unhashable_name_is_an_internal_error :
  registered (param_name Sample.list_name_params) = false /\
  exists r,
    MCPServer.handle_request Sample.runtime Sample.world
      (tools_call "1" Sample.list_name_params) = Ok r /\
    error_code r = Some (-32603) /\
    error_message r = Some "Internal error: unhashable type: 'list'".
Proof.
  split; [reflexivity|]. eexists. repeat split.
Qed.

Lemma tools_call_error_codes_witness :
  exists r,
    MCPServer.handle_request Sample.runtime Sample.world
      (tools_call "2" Sample.nonexistent_params) = Ok r /\
    error_code r = Some (-32601).
Proof.
  destruct (tools_call_error_codes Sample.runtime Sample.world "2"
              Sample.nonexistent_params) as (r & Hr & Hcode & _).
  exists r. split; [exact Hr|].
  apply Hcode. split; [reflexivity|]. eexists. reflexivity.
Defined.

(** C6, as stated, fails: the response has a fourth member, ["error"]. *)
Lemma add_scenario_has_an_error_member :
  exists r,
    MCPServer.handle_request Sample.runtime Sample.world Sample.add_request = Ok r /\
    MCPResponse.model_dump r <> Sample.add_response_of_the_specification /\
    dict_find (MCPResponse.model_dump r) "error" = Some VNone.
Proof.
  eexists. split; [reflexivity|]. split; [discriminate|reflexivity].
Qed.

(** C7, as stated, fails between one half and three quarters: the range is
    not inverted, and the tool returns 0, which is below its lower end. *)
Lemma fractional_range_leaves_the_range :
  MCPServer.call_tool Sample.runtime Sample.world (VStr "random_number")
    (Sample.range_arguments (VFloat Sample.one_half) (VFloat Sample.three_quarters))
    = Ok (Plain (VInt 0)) /\
  number_le (NFloat Sample.one_half) (NFloat Sample.three_quarters) = true /\
  number_le (NFloat Sample.one_half) (NInt 0) = false.
Proof.
  repeat split.
Qed.

Lemma random_number_range_witness :
  exists n,
    MCPServer.call_tool Sample.runtime Sample.world (VStr "random_number")
      (Sample.range_arguments (VInt 1) (VInt 6)) = Ok (Plain (VInt n)) /\
    1 <= n <= 6.
Proof.
  refine (proj2 (proj2
    (random_number_range Sample.runtime Sample.world (VInt 1) (VInt 6)
       (NInt 1) (NInt 6) eq_refl eq_refl)) 1 6 eq_refl eq_refl _).
  lia.
Defined.

(** C8, as stated, fails twice: a number for [url] raises, and a URL
    followed by a newline is accepted though it is not in the grammar. *)
Lemma validate_url_raises_and_accepts_a_newline :
  MCPServer.call_tool Sample.runtime Sample.world (VStr "validate_url")
    (url_argument (VInt 5))
    = raise TypeError "expected string or bytes-like object, got 'int'" /\
  MCPServer.call_tool Sample.runtime Sample.world (VStr "validate_url")
    (url_argument (VStr ("http://localhost" ++ newline)))
    = Ok (Plain (VBool true)) /\
  ~ UrlGrammar.url ("http://localhost" ++ newline).
Proof.
  split; [reflexivity|]. split; [vm_compute; reflexivity|].
  intros H. apply url_language, matchb_matches in H.
  vm_compute in H. discriminate H.
Qed.

Lemma validate_url_decides_the_grammar_witness :
  UrlGrammar.url "https://Example.COM/a?b=1".
Proof.
  destruct (validate_url_decides_the_grammar Sample.runtime Sample.world
              "https://Example.COM/a?b=1" eq_refl) as (b & Hb & _ & _ & Hgrammar & _).
  apply Hgrammar; [reflexivity|].
  assert (E : MCPServer.call_tool Sample.runtime Sample.world (VStr "validate_url")
                (url_argument (VStr "https://Example.COM/a?b=1"))
              = Ok (Plain (VBool true))) by (vm_compute; reflexivity).
  rewrite E in Hb. injection Hb as <-. reflexivity.
Defined.

Lemma validate_url_language_witness :
  UrlGrammar.url "http://10.0.0.1:8000" \/
  exists t, ("http://10.0.0.1:8000" ++ newline)%string = (t ++ newline)%string /\
            UrlGrammar.url t.
Proof.
  destruct (validate_url_language Sample.runtime Sample.world
              ("http://10.0.0.1:8000" ++ newline) eq_refl) as (b & Hb & Hlanguage).
  assert (E : MCPServer.call_tool Sample.runtime Sample.world (VStr "validate_url")
                (url_argument (VStr ("http://10.0.0.1:8000" ++ newline)))
              = Ok (Plain (VBool true))) by (vm_compute; reflexivity).
  rewrite E in Hb. injection Hb as <-.
  destruct (proj1 Hlanguage eq_refl) as [H|(t & Ht & Hu)].
  - exfalso. apply url_language, matchb_matches in H. vm_compute in H. discriminate H.
  - right. exists t. split; [exact Ht|exact Hu].
Defined.

(** C9, as stated, fails on [divide]: it is registered, and with an empty
    argument mapping it raises. *)
Lemma divide_on_empty_arguments_raises :
  registered (VStr "divide") = true /\
  MCPServer.call_tool Sample.runtime Sample.world (VStr "divide") (VDict [])
    = raise ValueError "Division by zero is not allowed".
Proof.
  split; reflexivity.
Qed.

Lemma disconnect_absent_is_noop_witness :
  ConnectionManager.disconnect 2%nat [1%nat] = Ok [1%nat] /\
  ConnectionManager.disconnect 2%nat (ConnectionManager.connect 2%nat [1%nat])
    = Ok [1%nat] /\
  (forall ws' conns', exists after,
      ConnectionManager.disconnect ws' conns' = Ok after) /\
  exists final n,
    run_registry [ Connect 2%nat; Drop 2%nat; Drop 2%nat ] [1%nat] = Ok final /\
    reported_connections final = Some n /\ 0 <= n.
Proof.
  exact (disconnect_absent_is_noop 2%nat [1%nat]
           [ Connect 2%nat; Drop 2%nat; Drop 2%nat ] eq_refl).
Defined.

(** * Further properties of the code *)

(** ** Routing *)

(** X1: a method other than [initialize], [tools/list] and [tools/call] is
    answered with [-32601] and a message that names the method. *)
Theorem unknown_method_is_not_found rt w request :
  MCPRequest.method request <> "initialize" ->
  MCPRequest.method request <> "tools/list" ->
  MCPRequest.method request <> "tools/call" ->
  MCPServer.handle_request rt w request =
    Ok (MCPResponse.with_error (MCPRequest.id request)
          (error_object (-32601)
             ("Method '" ++ MCPRequest.method request ++ "' not found"))).
Proof.
  intros H1 H2 H3. unfold MCPServer.handle_request, MCPServer.route.
  apply String.eqb_neq in H1, H2, H3. now rewrite H1, H2, H3.
Qed.

Lemma unknown_method_is_not_found_witness :
  MCPServer.handle_request Sample.runtime Sample.world Sample.ping_request =
    Ok (MCPResponse.with_error "1"
          (error_object (-32601) "Method 'ping' not found")).
Proof.
  apply (unknown_method_is_not_found Sample.runtime Sample.world Sample.ping_request);
    discriminate.
Defined.

(** X2: a [tools/call] request without [name] looks up [None]: the answer is
    [-32601] for the tool ['None']. *)
Theorem missing_name_is_not_found rt w id params :
  dict_find params "name" = None ->
  MCPServer.handle_request rt w (tools_call id params) =
    Ok (MCPResponse.with_error id
          (error_object (-32601) "Tool 'None' not found")).
Proof.
  intros H. unfold MCPServer.handle_request. rewrite route_tools_call.
  unfold param_name. rewrite H. reflexivity.
Qed.

Lemma missing_name_is_not_found_witness :
  MCPServer.handle_request Sample.runtime Sample.world (tools_call "3" []) =
    Ok (MCPResponse.with_error "3"
          (error_object (-32601) "Tool 'None' not found")).
Proof.
  apply (missing_name_is_not_found Sample.runtime Sample.world "3" []). reflexivity.
Defined.

(** X3: [echo] through the dispatcher: the text comes back as it was sent, in one
    text item, under the id of the request. *)
Theorem echo_returns_the_text rt w id s :
  MCPServer.handle_request rt w
    (tools_call id [ ("name", VStr "echo"); ("arguments", text_arguments s) ]) =
    Ok (MCPResponse.with_result id (MCPServer.content_envelope s)).
Proof. reflexivity. Qed.

(** X4: the HTTP route and the dispatcher read the same call alike: what the
    route returns as [result] the dispatcher sends as text, the route's
    [error] is the dispatcher's [-32601] message, and a fault that leaves the
    route is the dispatcher's [-32603]. *)
Theorem route_and_dispatcher_agree rt w id params :
  match Routes.call_tool rt w params with
  | Ok body =>
      (exists v, body = [ ("result", v) ] /\
         MCPServer.handle_request rt w (tools_call id params) =
           Ok (match tool_value_str rt v with
               | Ok text =>
                   MCPResponse.with_result id (MCPServer.content_envelope text)
               | Raised e =>
                   MCPResponse.with_error id
                     (error_object (-32603) ("Internal error: " ++ exc_text e))
               end)) \/
      (exists message, body = [ ("error", Plain (VStr message)) ] /\
         MCPServer.handle_request rt w (tools_call id params) =
           Ok (MCPResponse.with_error id (error_object (-32601) message)))
  | Raised e =>
      MCPServer.handle_request rt w (tools_call id params) =
        Ok (MCPResponse.with_error id
              (error_object (-32603) ("Internal error: " ++ exc_text e)))
  end.
Proof.
  unfold Routes.call_tool, MCPServer.handle_request.
  rewrite route_tools_call, get_name, get_arguments. cbn [bind].
  destruct (dict_contains tools (param_name params)) as [[|]|e0]; cbn [bind try_except].
  - destruct (MCPServer.call_tool rt w (param_name params) (param_arguments params))
      as [v|e1]; cbn [bind try_except]; [|reflexivity].
    left. exists v. split; [reflexivity|].
    now destruct (tool_value_str rt v).
  - destruct (py_str rt (param_name params)) as [n|e1]; cbn [bind try_except];
      [|reflexivity].
    right. eexists. split; reflexivity.
  - reflexivity.
Qed.

(** The envelope of the dispatcher's response. *)
Lemma handle_request_envelope rt w request r :
  MCPServer.handle_request rt w request = Ok r ->
  MCPResponse.jsonrpc r = "2.0" /\ MCPResponse.id r = MCPRequest.id request.
Proof.
  intros H.
  destruct (handle_request_returns rt w request) as (r0 & Hr & Hroute).
  rewrite Hr in H. injection H as <-.
  destruct (MCPServer.route rt w request) as [r'|e] eqn:E.
  - subst r'. destruct (route_returns _ _ _ _ E) as [(res & _ & ->)|(m & ->)];
      split; reflexivity.
  - subst r0. split; reflexivity.
Qed.

(** An [except] clause delivers its error response or nothing. *)
Lemma recover_delivers rt f k e :
  Routes.delivered (Routes.recover rt f k e) = [ Routes.error_response e ] \/
  Routes.delivered (Routes.recover rt f k e) = [].
Proof.
  unfold Routes.recover.
  destruct (Routes.send_response rt f k (Routes.error_response e));
    [left|right]; reflexivity.
Qed.

Lemma error_response_envelope e :
  MCPResponse.jsonrpc (Routes.error_response e) = "2.0" /\
  MCPResponse.id (Routes.error_response e) = "unknown".
Proof.
  unfold Routes.error_response. destruct (exc_cls e); split; reflexivity.
Qed.

(** What the handling of one frame delivers: nothing, the error response of
    an [except] clause, or the response of the dispatcher to the request the
    frame decodes into. *)
Lemma answer_delivers rt f :
  Routes.delivered (Routes.answer rt f) = [] \/
  (exists e, Routes.delivered (Routes.answer rt f) = [ Routes.error_response e ]) \/
  (exists request r,
     Routes.decode rt f = Ok request /\
     MCPServer.handle_request rt (Routes.world f) request = Ok r /\
     Routes.send_response rt f 0 r = Ok tt /\
     Routes.answer rt f = Routes.Handled [ r ] None).
Proof.
  unfold Routes.answer, Routes.respond.
  destruct (Routes.decode rt f) as [request|e] eqn:Hd; cbn [bind].
  - destruct (MCPServer.handle_request rt (Routes.world f) request) as [r|e] eqn:Hr.
    + destruct (Routes.model_dump_json rt r) as [message|e] eqn:Hm.
      * destruct (Routes.send_text f 0 message) as [[]|e] eqn:Hs.
        -- right. right. exists request, r.
           split; [reflexivity|]. split; [exact Hr|]. split; [|reflexivity].
           unfold Routes.send_response. rewrite Hm. exact Hs.
        -- destruct (recover_delivers rt f 1 e) as [H|H]; rewrite H; eauto.
      * destruct (recover_delivers rt f 0 e) as [H|H]; rewrite H; eauto.
    + destruct (recover_delivers rt f 0 e) as [H|H]; rewrite H; eauto.
  - destruct (recover_delivers rt f 0 e) as [H|H]; rewrite H; eauto.
Qed.

(** ** Messages of the receive loop *)

(** X5: the handling of one frame delivers at most one message; a message it
    delivers carries [jsonrpc] ["2.0"], whatever the request said, and its id
    is ["unknown"] or the id of the request the frame decodes into; when the
    frame does not decode its id is ["unknown"]; and when the frame decodes
    and the channel takes the dispatcher's response, that response is what
    is delivered. *)
Theorem sent_message_envelope rt f :
  (List.length (Routes.delivered (Routes.answer rt f)) <= 1)%nat /\
  (forall r, In r (Routes.delivered (Routes.answer rt f)) ->
     MCPResponse.jsonrpc r = "2.0" /\
     (MCPResponse.id r = "unknown" \/
      exists request,
        Routes.decode rt f = Ok request /\ MCPResponse.id r = MCPRequest.id request)) /\
  (forall e r, Routes.decode rt f = Raised e ->
     In r (Routes.delivered (Routes.answer rt f)) -> MCPResponse.id r = "unknown") /\
  (forall request r,
     Routes.decode rt f = Ok request ->
     MCPServer.handle_request rt (Routes.world f) request = Ok r ->
     Routes.send_response rt f 0 r = Ok tt ->
     Routes.delivered (Routes.answer rt f) = [ r ] /\
     MCPResponse.id r = MCPRequest.id request).
Proof.
  split; [|split; [|split]].
  - destruct (answer_delivers rt f) as [H|[(e & H)|(request & r & _ & _ & _ & H)]];
      rewrite H; cbn; auto.
  - intros r Hin.
    destruct (answer_delivers rt f) as [H|[(e & H)|(request & r0 & Hd & Hr & _ & H)]];
      rewrite H in Hin; cbn in Hin.
    + contradiction.
    + destruct Hin as [<-|[]].
      destruct (error_response_envelope e) as [Hj Hi]. split; [exact Hj|left; exact Hi].
    + destruct Hin as [<-|[]].
      destruct (handle_request_envelope _ _ _ _ Hr) as [Hj Hi].
      split; [exact Hj|]. right. exists request. split; [exact Hd|exact Hi].
  - intros e r Hd Hin.
    destruct (answer_delivers rt f) as [H|[(e' & H)|(request & r0 & Hd' & _)]].
    + rewrite H in Hin. contradiction.
    + rewrite H in Hin. destruct Hin as [<-|[]].
      apply error_response_envelope.
    + rewrite Hd in Hd'. discriminate.
  - intros request r Hd Hr Hs.
    rewrite (answer_request rt f request r Hd Hr Hs). split; [reflexivity|].
    apply (handle_request_envelope _ _ _ _ Hr).
Qed.

Lemma sent_message_envelope_witness :
  Routes.delivered (Routes.answer Sample.runtime Sample.initialize_frame) =
    [ MCPResponse.with_result "7" MCPServer.initialize_result ] /\
  MCPResponse.id (MCPResponse.with_result "7" MCPServer.initialize_result) = "7".
Proof.
  apply (proj2 (proj2 (proj2
    (sent_message_envelope Sample.runtime Sample.initialize_frame)))
    Sample.initialize_request
    (MCPResponse.with_result "7" MCPServer.initialize_result)
    eq_refl eq_refl eq_refl).
Defined.

(** ** Registry and bindings *)

(** The keys of the registry: a name outside them is none of the names that
    [call_tool] tests. *)
Ltac split_registry H :=
  unfold tools, descriptor in H; cbn [dict_find fst snd] in H;
  repeat match type of H with
         | (if String.eqb ?s ?k then _ else _) = _ =>
             let E := fresh "E" in destruct (String.eqb s k) eqn:E
         end.

(** X6: the registry and the bindings name the same tools: a key of the
    registry has a binding, which returns on some arguments in some world; a
    text that is not a key has none, and the call raises [Unknown tool]; the
    keys are distinct, and every key is the name its descriptor
    advertises. *)
Theorem registry_names_the_bindings rt name :
  (registered (VStr name) = true ->
   exists w arguments v, MCPServer.call_tool rt w (VStr name) arguments = Ok v) /\
  (registered (VStr name) = false ->
   forall w arguments,
     MCPServer.call_tool rt w (VStr name) arguments =
       raise ValueError ("Unknown tool: " ++ name)) /\
  NoDup (map fst tools) /\
  forallb named_by_key tools = true.
Proof.
  unfold registered. split; [|split; [|split]].
  - intros H. destruct (dict_find tools name) eqn:Hf; [clear H|discriminate].
    exists Sample.served_world, (VDict [ ("b", VInt 1) ]).
    split_registry Hf; try discriminate;
      match goal with
      | E : String.eqb _ _ = true |- _ => apply String.eqb_eq in E; subst name
      end;
      eexists; vm_compute; reflexivity.
  - intros H w arguments.
    destruct (dict_find tools name) eqn:Hf; [discriminate|clear H].
    split_registry Hf; try discriminate.
    unfold MCPServer.call_tool. cbn [py_eq].
    repeat match goal with E : String.eqb _ _ = false |- _ => rewrite E; clear E end.
    reflexivity.
  - cbn. repeat constructor; cbn; intuition discriminate.
  - reflexivity.
Qed.

Lemma registry_names_the_bindings_witness :
  MCPServer.call_tool Sample.runtime Sample.world (VStr "nonexistent") (VDict []) =
    raise ValueError "Unknown tool: nonexistent".
Proof.
  apply (proj1 (proj2
    (registry_names_the_bindings Sample.runtime "nonexistent")) eq_refl).
Defined.

(** X7: a registered tool other than [get_time] and [generate_uuid] reads its
    arguments with [get]: when [arguments] is not a mapping, the call raises
    the [AttributeError] of that access. *)
Theorem arguments_must_be_a_mapping rt w name arguments :
  registered (VStr name) = true ->
  ignores_arguments name = false ->
  is_mapping arguments = false ->
  MCPServer.call_tool rt w (VStr name) arguments = no_attribute arguments "get".
Proof.
  unfold registered. intros H Hi Hm.
  destruct (dict_find tools name) eqn:Hf; [clear H|discriminate].
  split_registry Hf; try discriminate;
    match goal with E : String.eqb _ _ = true |- _ => apply String.eqb_eq in E; subst name end;
    try discriminate Hi;
    destruct arguments; try discriminate Hm; reflexivity.
Qed.

Lemma arguments_must_be_a_mapping_witness :
  MCPServer.call_tool Sample.runtime Sample.world (VStr "echo") VNone =
    raise AttributeError "'NoneType' object has no attribute 'get'".
Proof.
  apply (arguments_must_be_a_mapping Sample.runtime Sample.world "echo" VNone);
    reflexivity.
Defined.

(** ** Arithmetic tools *)

Lemma fin_compare_zero_r m e :
  fin_compare m e 0 0 = Z.compare m 0.
Proof.
  unfold fin_compare. rewrite Z.mul_0_l.
  pose proof (pow2_nonneg_pos (e - Z.min e 0)) as Hp.
  destruct (Z.compare_spec m 0) as [->|H|H].
  - reflexivity.
  - apply Z.compare_lt_iff. apply Z.mul_neg_pos; lia.
  - apply Z.compare_gt_iff. apply Z.mul_pos_pos; lia.
Qed.

(** [b == 0] holds for the integer 0, for [False] and for both float zeros,
    and for nothing else. *)
Lemma py_eq_zero b : py_eq b (VInt 0) = is_zero b.
Proof.
  destruct b as [|[|]|n|f|s|l|d]; try reflexivity.
  - cbn. unfold num_compare. cbn. rewrite fin_compare_zero_r. now destruct n.
  - destruct f as [s|s| |s m e]; try reflexivity; try (now destruct s).
    cbn. unfold num_compare. cbn. rewrite fin_compare_zero_r. now destruct s.
Qed.

Lemma py_truediv_fault a b e :
  py_truediv a b = Raised e -> exc_cls e <> ValueError.
Proof.
  unfold py_truediv.
  destruct (as_number a) as [[x|fx]|], (as_number b) as [[y|fy]|]; cbn [bind];
    try (intros [= <-]; discriminate).
  - unfold int_true_divide.
    destruct x, y; cbn [bind]; try (intros [= <-]; discriminate);
      match goal with
      | |- context [f64_div ?p ?q] => destruct (f64_div p q)
      end; cbn [bind]; intros [= <-]; discriminate.
  - unfold to_float, float_of_int.
    destruct (float64_of x 0); cbn [bind raise];
      try (intros [= <-]; discriminate);
      destruct (float_is_zero fy); intros [= <-]; discriminate.
  - unfold to_float, float_of_int.
    destruct (float64_of y 0) eqn:Ey; cbn [bind raise float_is_zero];
      try (intros [= <-]; discriminate).
  - cbn [to_float bind]. destruct (float_is_zero fy); intros [= <-]; discriminate.
Qed.

(** X8: [divide] raises its own error exactly for a divisor that equals zero: 0,
    0.0, -0.0 and [False], whatever the dividend; with any other divisor a
    failure is a fault of another class. *)
Theorem divide_by_zero_guard rt w a b :
  let result :=
    MCPServer.call_tool rt w (VStr "divide") (pair_arguments a b) in
  if is_zero b
  then result = raise ValueError "Division by zero is not allowed"
  else forall e, result = Raised e -> exc_cls e <> ValueError.
Proof.
  cbv zeta.
  change (MCPServer.call_tool rt w (VStr "divide") (pair_arguments a b))
    with (if py_eq b (VInt 0)
          then raise (A := tool_value) ValueError "Division by zero is not allowed"
          else r <- py_truediv a b ;; MCPServer.plain r).
  rewrite py_eq_zero. destruct (is_zero b); [reflexivity|].
  intros e. destruct (py_truediv a b) as [q|e'] eqn:E; cbn [bind].
  - discriminate.
  - intros [= <-]. now apply py_truediv_fault in E.
Qed.

(** ** [sqrt] *)

Lemma float_pow_of_non_negative rt iv iw re im :
  float_ltb iv float_zero = false ->
  float_pow rt iv iw <> Ok (Complex re im).
Proof.
  intros H. unfold float_pow. rewrite H. cbn [andb].
  repeat match goal with
         | |- (if ?c then _ else _) <> _ => destruct c
         end; try discriminate.
  destruct (libm_pow rt iv iw); cbn [bind]; discriminate.
Qed.

Lemma float64_of_non_negative n e :
  0 <= n -> float_ltb (float64_of n e) float_zero = false.
Proof.
  intros Hn. unfold float64_of, binary_normalize.
  destruct n as [|m|m]; [reflexivity| |lia].
  unfold binary_round.
  destruct (shl_align m e (fexp 53 1024 (Z.pos (digits2_pos m) + e))) as [mz ez].
  unfold binary_round_aux.
  destruct (shr_fexp 53 1024 (Z.pos mz) ez loc_Exact) as [mrs' e'].
  destruct (shr_fexp 53 1024 _ e' loc_Exact) as [mrs'' e''].
  destruct (shr_m mrs'') as [|p|p]; try reflexivity.
  destruct (e'' <=? 1024 - 53); [|reflexivity].
  unfold float_ltb, float_cmp. cbn [real_of_float real_compare cond_Zopp float_zero].
  rewrite fin_compare_zero_r. reflexivity.
Qed.

Lemma number_negative_float f :
  number_negative (NFloat f) = float_ltb f float_zero.
Proof. reflexivity. Qed.

Lemma number_negative_int n : number_negative (NInt n) = (n <? 0).
Proof.
  unfold number_negative, num_compare. cbn.
  rewrite fin_compare_zero_r. unfold Z.ltb. reflexivity.
Qed.

Lemma py_lt_zero v x :
  as_number v = Some x -> py_lt v (VInt 0) = Ok (number_negative x).
Proof.
  unfold py_lt, number_negative.
  destruct v; cbn [as_number]; try discriminate; intros [= <-];
    cbn [py_order as_number]; unfold order_holds;
    destruct (num_compare _ _) as [[| |]|]; reflexivity.
Qed.

(** X9: [sqrt] on a number: a negative number (also minus infinity) raises the
    tool's error; any other number is raised to the power one half, and the
    result is never a complex number. *)
Theorem sqrt_rejects_negative_numbers rt w v x :
  as_number v = Some x ->
  let result :=
    MCPServer.call_tool rt w (VStr "sqrt") (VDict [ ("number", v) ]) in
  (number_negative x = true ->
   result = raise ValueError "Cannot calculate square root of negative number") /\
  (number_negative x = false -> result = py_pow rt v (VFloat float_half)) /\
  (forall re im, result <> Ok (Complex re im)).
Proof.
  intros Hx. cbv zeta.
  change (MCPServer.call_tool rt w (VStr "sqrt") (VDict [ ("number", v) ]))
    with (negative <- py_lt v (VInt 0) ;;
          if negative
          then raise (A := tool_value) ValueError
                 "Cannot calculate square root of negative number"
          else py_pow rt v (VFloat float_half)).
  rewrite (py_lt_zero _ _ Hx). cbn [bind].
  split; [|split].
  - now intros ->.
  - now intros ->.
  - intros re im. destruct (number_negative x) eqn:Hneg; [discriminate|].
    unfold py_pow. rewrite Hx. cbn [as_number].
    destruct x as [n|f]; cbn [to_float bind].
    + rewrite number_negative_int in Hneg. apply Z.ltb_ge in Hneg.
      unfold float_of_int.
      pose proof (float64_of_non_negative n 0 Hneg) as Hf.
      destruct (float64_of n 0); cbn [bind raise]; try discriminate;
        now apply float_pow_of_non_negative.
    + rewrite number_negative_float in Hneg.
      now apply float_pow_of_non_negative.
Qed.

Lemma sqrt_rejects_negative_numbers_witness :
  MCPServer.call_tool Sample.runtime Sample.world (VStr "sqrt")
    (VDict [ ("number", VInt (-4)) ]) =
  raise ValueError "Cannot calculate square root of negative number".
Proof.
  apply (sqrt_rejects_negative_numbers Sample.runtime Sample.world
           (VInt (-4)) (NInt (-4)) eq_refl).
  reflexivity.
Defined.

(** ** [random_number] on NaN and the infinities *)

Lemma py_int_not_finite v x :
  as_number v = Some x -> truncation x = None ->
  exists e, py_int v = Raised e.
Proof.
  unfold truncation.
  destruct v; cbn [as_number]; try discriminate; intros [= <-];
    cbn [real_of_number py_int]; try discriminate.
  unfold int_of_float. destruct (real_of_float f); try discriminate;
    intros _; eexists; reflexivity.
Qed.

(** X10: [random_number] never returns when one end of the range is NaN or
    infinite: it raises. *)
Theorem random_number_needs_finite_ends rt w lo hi x y :
  as_number lo = Some x -> as_number hi = Some y ->
  truncation x = None \/ truncation y = None ->
  exists e,
    MCPServer.call_tool rt w (VStr "random_number") (Sample.range_arguments lo hi)
      = Raised e.
Proof.
  intros Hx Hy H. rewrite random_number_steps.
  rewrite (py_gt_numbers _ _ _ _ Hx Hy). cbn [bind].
  destruct (number_gt x y); [eexists; reflexivity|].
  destruct (truncation x) as [a|] eqn:Ha.
  - rewrite (py_int_number _ _ _ Hx Ha). cbn [bind].
    destruct H as [H|H]; [discriminate|].
    destruct (py_int_not_finite _ _ Hy H) as (e & ->). eexists; reflexivity.
  - destruct (py_int_not_finite _ _ Hx Ha) as (e & ->). eexists; reflexivity.
Qed.

Lemma random_number_needs_finite_ends_witness :
  exists e,
    MCPServer.call_tool Sample.runtime Sample.world (VStr "random_number")
      (Sample.range_arguments (VInt 0) (VFloat (S754_infinity false))) = Raised e.
Proof.
  apply (random_number_needs_finite_ends Sample.runtime Sample.world
           (VInt 0) (VFloat (S754_infinity false)) (NInt 0)
           (NFloat (S754_infinity false)) eq_refl eq_refl).
  right. reflexivity.
Defined.

(** ** Text tools *)

Lemma string_of_list_length l :
  String.length (string_of_list_ascii l) = List.length l.
Proof. induction l as [|c l IH]; cbn; [reflexivity|now rewrite IH]. Qed.

Lemma list_of_string_length s :
  List.length (list_ascii_of_string s) = String.length s.
Proof. induction s as [|c s IH]; cbn; [reflexivity|now rewrite IH]. Qed.

Lemma str_reverse_involutive s : str_reverse (str_reverse s) = s.
Proof.
  unfold str_reverse.
  rewrite list_ascii_of_string_of_list_ascii, rev_involutive.
  apply string_of_list_ascii_of_string.
Qed.

Lemma str_reverse_length s : String.length (str_reverse s) = String.length s.
Proof.
  unfold str_reverse.
  now rewrite string_of_list_length, length_rev, list_of_string_length.
Qed.

(** X11: [reverse_string] undoes itself, and keeps the length that
    [string_length] reports. *)
Theorem reverse_string_twice rt w s :
  exists t,
    MCPServer.call_tool rt w (VStr "reverse_string") (text_arguments s) =
      Ok (Plain (VStr t)) /\
    MCPServer.call_tool rt w (VStr "reverse_string") (text_arguments t) =
      Ok (Plain (VStr s)) /\
    MCPServer.call_tool rt w (VStr "string_length") (text_arguments t) =
      MCPServer.call_tool rt w (VStr "string_length") (text_arguments s).
Proof.
  exists (str_reverse s). split; [reflexivity|]. split.
  - change (MCPServer.call_tool rt w (VStr "reverse_string")
              (text_arguments (str_reverse s)))
      with (Ok (A := tool_value) (Plain (VStr (str_reverse (str_reverse s))))).
    now rewrite str_reverse_involutive.
  - change (Ok (A := tool_value) (Plain (VInt (str_len (str_reverse s)))) =
            Ok (Plain (VInt (str_len s)))).
    unfold str_len. now rewrite str_reverse_length.
Qed.

Lemma string_map_length f s : String.length (string_map f s) = String.length s.
Proof. induction s as [|c s IH]; cbn; [reflexivity|now rewrite IH]. Qed.

Lemma string_map_compose f g h s :
  (forall c, f (g c) = h c) -> string_map f (string_map g s) = string_map h s.
Proof.
  intros H. induction s as [|c s IH]; cbn; [reflexivity|now rewrite H, IH].
Qed.

Lemma char_upper_lower c : char_upper (char_lower c) = char_upper c.
Proof. destruct c as [[] [] [] [] [] [] [] []]; reflexivity. Qed.

Lemma char_lower_upper c : char_lower (char_upper c) = char_lower c.
Proof. destruct c as [[] [] [] [] [] [] [] []]; reflexivity. Qed.

Lemma char_upper_upper c : char_upper (char_upper c) = char_upper c.
Proof. destruct c as [[] [] [] [] [] [] [] []]; reflexivity. Qed.

Lemma char_lower_lower c : char_lower (char_lower c) = char_lower c.
Proof. destruct c as [[] [] [] [] [] [] [] []]; reflexivity. Qed.

(** X12: on ASCII text (where the embedding of [upper] and [lower] is exact)
    [uppercase] and [lowercase] forget the case they are given: each is
    idempotent, each absorbs the other, and both keep the length. *)
Theorem case_tools_forget_case rt w s :
  ascii_text s = true ->
  exists u l,
    MCPServer.call_tool rt w (VStr "uppercase") (text_arguments s) =
      Ok (Plain (VStr u)) /\
    MCPServer.call_tool rt w (VStr "lowercase") (text_arguments s) =
      Ok (Plain (VStr l)) /\
    MCPServer.call_tool rt w (VStr "uppercase") (text_arguments u) =
      Ok (Plain (VStr u)) /\
    MCPServer.call_tool rt w (VStr "uppercase") (text_arguments l) =
      Ok (Plain (VStr u)) /\
    MCPServer.call_tool rt w (VStr "lowercase") (text_arguments u) =
      Ok (Plain (VStr l)) /\
    MCPServer.call_tool rt w (VStr "lowercase") (text_arguments l) =
      Ok (Plain (VStr l)) /\
    String.length u = String.length s /\ String.length l = String.length s.
Proof.
  intros _. exists (str_upper s), (str_lower s).
  split; [reflexivity|]. split; [reflexivity|].
  assert (Hcall : forall name f t,
            (name = "uppercase" /\ f = str_upper) \/
            (name = "lowercase" /\ f = str_lower) ->
            MCPServer.call_tool rt w (VStr name) (text_arguments t) =
              Ok (Plain (VStr (f t)))).
  { intros name f t [ [ -> -> ] | [ -> -> ] ]; reflexivity. }
  unfold str_upper, str_lower in *.
  repeat split.
  - rewrite (Hcall "uppercase" (string_map char_upper)) by auto.
    now rewrite (string_map_compose _ _ char_upper) by apply char_upper_upper.
  - rewrite (Hcall "uppercase" (string_map char_upper)) by auto.
    now rewrite (string_map_compose _ _ char_upper) by apply char_upper_lower.
  - rewrite (Hcall "lowercase" (string_map char_lower)) by auto.
    now rewrite (string_map_compose _ _ char_lower) by apply char_lower_upper.
  - rewrite (Hcall "lowercase" (string_map char_lower)) by auto.
    now rewrite (string_map_compose _ _ char_lower) by apply char_lower_lower.
  - apply string_map_length.
  - apply string_map_length.
Qed.

Lemma case_tools_forget_case_witness :
  exists u l,
    MCPServer.call_tool Sample.runtime Sample.world (VStr "uppercase")
      (text_arguments "Hello") = Ok (Plain (VStr u)) /\
    MCPServer.call_tool Sample.runtime Sample.world (VStr "lowercase")
      (text_arguments "Hello") = Ok (Plain (VStr l)) /\
    String.length u = 5%nat /\ String.length l = 5%nat.
Proof.
  destruct (case_tools_forget_case Sample.runtime Sample.world "Hello" eq_refl)
    as (u & l & Hu & Hl & _ & _ & _ & _ & Hlu & Hll).
  exists u, l. repeat split; assumption.
Defined.

(** ** File and network tools *)

Lemma int_str_fault n e : int_str n = Raised e -> exc_cls e = ValueError.
Proof.
  unfold int_str. destruct (int_max_str_digits <? dec_digits n);
    [intros [= <-]; reflexivity|discriminate].
Qed.

(** Rendering a value as text fails only on an integer that is too long, and
    then with [ValueError]. *)
Lemma py_repr_fault rt : forall v e,
  py_repr rt v = Raised e -> exc_cls e = ValueError.
Proof.
  fix IH 1. intros v e. destruct v as [|b|n|f|s|l|d]; cbn [py_repr];
    try discriminate.
  - apply int_str_fault.
  - match goal with
    | |- (items <- ?each l ;; _) = _ -> _ =>
        assert (Hl : forall l0 e0, each l0 = Raised e0 -> exc_cls e0 = ValueError)
    end.
    { induction l0 as [|x l0 IHl]; intros e0; [discriminate|].
      destruct (py_repr rt x) as [sx|ex] eqn:Ex; cbn [bind].
      - match goal with
        | |- (r <- ?t ;; _) = _ -> _ => destruct t as [r|er] eqn:Er
        end; cbn [bind]; [discriminate|].
        intros [= <-]. now apply IHl.
      - intros [= <-]. now apply (IH x). }
    match goal with
    | |- (items <- ?each l ;; _) = _ -> _ => destruct (each l) as [items|el] eqn:El
    end; cbn [bind]; [discriminate|].
    intros [= <-]. now apply (Hl l).
  - match goal with
    | |- (items <- ?each d ;; _) = _ -> _ =>
        assert (Hd : forall d0 e0, each d0 = Raised e0 -> exc_cls e0 = ValueError)
    end.
    { induction d0 as [|[k x] d0 IHd]; intros e0; [discriminate|].
      destruct (py_repr rt x) as [sx|ex] eqn:Ex; cbn [bind].
      - match goal with
        | |- (r <- ?t ;; _) = _ -> _ => destruct t as [r|er] eqn:Er
        end; cbn [bind]; [discriminate|].
        intros [= <-]. now apply IHd.
      - intros [= <-]. now apply (IH x). }
    match goal with
    | |- (items <- ?each d ;; _) = _ -> _ => destruct (each d) as [items|el] eqn:El
    end; cbn [bind]; [discriminate|].
    intros [= <-]. now apply (Hd d).
Qed.

Lemma py_str_fault rt v e : py_str rt v = Raised e -> exc_cls e = ValueError.
Proof.
  destruct v; try apply py_repr_fault. discriminate.
Qed.

Lemma raise_class {A} c text e :
  raise (A := A) c text = Raised e -> exc_cls e = c.
Proof. now intros [= <-]. Qed.

(** X13: called with a mapping, the file tools raise nothing but [ValueError]:
    every fault of the file system is wrapped. *)
Theorem file_tools_raise_value_error rt w name d e :
  name = "read_file" \/ name = "write_file" \/ name = "list_directory" ->
  MCPServer.call_tool rt w (VStr name) (VDict d) = Raised e ->
  exc_cls e = ValueError.
Proof.
  intros [ -> | [ -> | -> ] ].
  - change (MCPServer.call_tool rt w (VStr "read_file") (VDict d))
      with (let filepath :=
              match dict_find d "filepath" with Some v => v | None => VStr "" end in
            try_except
              (content <- read_text w filepath ;; MCPServer.plain (VStr content))
              (fun e =>
                 match exc_cls e with
                 | FileNotFoundError =>
                     p <- py_str rt filepath ;;
                     raise ValueError ("File not found: " ++ p)
                 | _ => raise ValueError ("Error reading file: " ++ exc_text e)
                 end)).
    cbv zeta.
    destruct (read_text w _) as [c|e0]; cbn [bind try_except]; [discriminate|].
    destruct (exc_cls e0); try apply raise_class.
    destruct (py_str rt _) as [p|e1] eqn:Ep; cbn [bind]; [apply raise_class|].
    intros [= <-]. now apply py_str_fault in Ep.
  - change (MCPServer.call_tool rt w (VStr "write_file") (VDict d))
      with (let filepath :=
              match dict_find d "filepath" with Some v => v | None => VStr "" end in
            let content :=
              match dict_find d "content" with Some v => v | None => VStr "" end in
            try_except
              (_ <- write_text w filepath content ;;
               n <- py_len content ;; ns <- int_str n ;;
               p <- py_str rt filepath ;;
               MCPServer.plain
                 (VStr ("Successfully wrote " ++ ns ++ " characters to " ++ p)))
              (fun e => raise ValueError ("Error writing file: " ++ exc_text e))).
    cbv zeta.
    match goal with
    | |- try_except ?body _ = _ -> _ => destruct body as [r|e0]
    end; cbn [try_except]; [discriminate|apply raise_class].
  - change (MCPServer.call_tool rt w (VStr "list_directory") (VDict d))
      with (let path :=
              match dict_find d "path" with Some v => v | None => VStr "." end in
            try_except
              (items <- listdir w path ;;
               MCPServer.plain
                 (VDict [ ("path", path);
                          ("items", VList (map VStr items));
                          ("count", VInt (Z.of_nat (List.length items))) ]))
              (fun e =>
                 match exc_cls e with
                 | FileNotFoundError =>
                     p <- py_str rt path ;;
                     raise ValueError ("Directory not found: " ++ p)
                 | _ => raise ValueError ("Error listing directory: " ++ exc_text e)
                 end)).
    cbv zeta.
    destruct (listdir w _) as [c|e0]; cbn [bind try_except]; [discriminate|].
    destruct (exc_cls e0); try apply raise_class.
    destruct (py_str rt _) as [p|e1] eqn:Ep; cbn [bind]; [apply raise_class|].
    intros [= <-]. now apply py_str_fault in Ep.
Qed.

Lemma file_tools_raise_value_error_witness :
  MCPServer.call_tool Sample.runtime Sample.world (VStr "read_file")
    (VDict [ ("filepath", VStr "notes.txt") ]) =
    Raised (Exc ValueError "File not found: notes.txt") /\
  exc_cls (Exc ValueError "File not found: notes.txt") = ValueError.
Proof.
  split; [reflexivity|].
  apply (file_tools_raise_value_error Sample.runtime Sample.world "read_file"
           [ ("filepath", VStr "notes.txt") ]
           (Exc ValueError "File not found: notes.txt")).
  - left. reflexivity.
  - reflexivity.
Defined.

(** X14: [read_file] on a path given as text: the content when the file can be
    read; "File not found" with the path when it does not exist; the text of
    any other fault after "Error reading file". *)
Theorem read_file_outcomes rt w path :
  MCPServer.call_tool rt w (VStr "read_file") (VDict [ ("filepath", VStr path) ]) =
  match read_text w (VStr path) with
  | Ok content => Ok (Plain (VStr content))
  | Raised e =>
      raise ValueError
        (match exc_cls e with
         | FileNotFoundError => "File not found: " ++ path
         | _ => "Error reading file: " ++ exc_text e
         end)
  end.
Proof.
  change (MCPServer.call_tool rt w (VStr "read_file")
            (VDict [ ("filepath", VStr path) ]))
    with (try_except
            (content <- read_text w (VStr path) ;; MCPServer.plain (VStr content))
            (fun e =>
               match exc_cls e with
               | FileNotFoundError =>
                   p <- py_str rt (VStr path) ;;
                   raise ValueError ("File not found: " ++ p)
               | _ => raise ValueError ("Error reading file: " ++ exc_text e)
               end)).
  destruct (read_text w (VStr path)) as [c|e]; cbn [bind try_except];
    [reflexivity|].
  now destruct (exc_cls e).
Qed.

(** X15: [make_request] upper-cases the method before it enters the [try]: a
    method that is not text raises [AttributeError]; with a text method (or
    none, which means GET) every fault of the request is a [ValueError]. *)
Theorem make_request_faults rt w d e :
  MCPServer.call_tool rt w (VStr "make_request") (VDict d) = Raised e ->
  exc_cls e =
    match dict_find d "method" with
    | Some (VStr _) | None => ValueError
    | Some _ => AttributeError
    end.
Proof.
  change (MCPServer.call_tool rt w (VStr "make_request") (VDict d))
    with (let url := match dict_find d "url" with Some v => v | None => VStr "" end in
          let m := match dict_find d "method" with Some v => v | None => VStr "GET" end in
          method <- py_upper m ;;
          let headers :=
            match dict_find d "headers" with Some v => v | None => VDict [] end in
          try_except
            (response <- http_request w method url headers ;;
             MCPServer.plain
               (VDict [ ("status_code", VInt (response_status_code response));
                        ("headers", MCPServer.headers_dict (response_headers response));
                        ("content", VStr (response_text response));
                        ("url", VStr (response_url response)) ]))
            (fun e => raise ValueError ("Error making request: " ++ exc_text e))).
  cbv zeta.
  destruct (dict_find d "method") as [[| | | |s| |]|]; cbn [py_upper bind];
    try apply raise_class;
    (match goal with
     | |- try_except ?body _ = _ -> _ => destruct body as [r|e0]
     end; cbn [try_except]; [discriminate|apply raise_class]).
Qed.

Lemma make_request_faults_witness :
  MCPServer.call_tool Sample.runtime Sample.world (VStr "make_request")
    (VDict [ ("url", VStr "http://localhost:8000/health"); ("method", VInt 5) ]) =
    Raised (Exc AttributeError "'int' object has no attribute 'upper'") /\
  exc_cls (Exc AttributeError "'int' object has no attribute 'upper'") =
    AttributeError.
Proof.
  split; [reflexivity|].
  apply (make_request_faults Sample.runtime Sample.world
           [ ("url", VStr "http://localhost:8000/health"); ("method", VInt 5) ]
           (Exc AttributeError "'int' object has no attribute 'upper'")).
  reflexivity.
Defined.

(** ** The connection registry, entry by entry *)

Lemma occurrences_absent ws conns :
  ConnectionManager.contains ws conns = false -> occurrences ws conns = O.
Proof.
  induction conns as [|c rest IH]; cbn; [reflexivity|].
  destruct (Nat.eqb c ws); cbn; [discriminate|exact IH].
Qed.

Lemma list_remove_occurrences ws conns conns' :
  ConnectionManager.list_remove ws conns = Ok conns' ->
  forall ws',
    occurrences ws' conns' =
    if Nat.eqb ws' ws then Nat.pred (occurrences ws conns) else occurrences ws' conns.
Proof.
  revert conns'. induction conns as [|c rest IH]; intros conns'; cbn;
    [discriminate|].
  destruct (Nat.eqb_spec c ws) as [->|Hc]; cbn.
  - intros [= <-] ws'. destruct (Nat.eqb_spec ws' ws) as [->|Hw]; [reflexivity|].
    destruct (Nat.eqb_spec ws ws'); [congruence|reflexivity].
  - destruct (ConnectionManager.list_remove ws rest) as [rest'|e] eqn:E; cbn;
      [|discriminate].
    intros [= <-] ws'. cbn. rewrite (IH rest' eq_refl ws').
    destruct (Nat.eqb_spec ws' ws) as [->|Hw].
    + destruct (Nat.eqb_spec c ws); [congruence|]. reflexivity.
    + reflexivity.
Qed.

Lemma occurrences_app ws a b :
  occurrences ws (a ++ b)%list = (occurrences ws a + occurrences ws b)%nat.
Proof. induction a as [|c a IH]; cbn; [reflexivity|rewrite IH; lia]. Qed.

(** X16: [connect] adds one entry for the websocket and [disconnect] removes one,
    if there is one; neither touches the entries of another websocket. *)
Theorem registry_counts_connections ws conns :
  (forall ws',
     occurrences ws' (ConnectionManager.connect ws conns) =
     ((if Nat.eqb ws ws' then 1 else 0) + occurrences ws' conns)%nat) /\
  exists conns',
    ConnectionManager.disconnect ws conns = Ok conns' /\
    forall ws',
      occurrences ws' conns' =
      if Nat.eqb ws' ws then Nat.pred (occurrences ws conns)
      else occurrences ws' conns.
Proof.
  split.
  - intros ws'. unfold ConnectionManager.connect. rewrite occurrences_app. cbn. lia.
  - unfold ConnectionManager.disconnect.
    destruct (ConnectionManager.contains ws conns) eqn:H.
    + destruct (list_remove_member _ _ H) as (conns' & Hr & _).
      exists conns'. split; [exact Hr|]. now apply list_remove_occurrences.
    + exists conns. split; [reflexivity|]. intros ws'.
      destruct (Nat.eqb_spec ws' ws) as [->|Hw]; [|reflexivity].
      now rewrite (occurrences_absent _ _ H).
Qed.

(** ** A whole run of the endpoint *)

(** An exception that leaves the loop: a disconnect closes the session and
    unregisters the websocket, anything else leaves the registry as it is. *)
Lemma stop_run ws conns e :
  let s := Routes.stop ws conns e in
  Routes.sent s = [] /\
  if is_disconnect e
  then Routes.state s = Routes.Closed /\
       ConnectionManager.disconnect ws conns = Ok (Routes.manager s)
  else Routes.state s = Routes.Failed e /\ Routes.manager s = conns.
Proof.
  cbv zeta. unfold Routes.stop, is_disconnect.
  destruct (disconnect_returns ws conns) as (c' & Hc).
  destruct (exc_cls e); try (repeat split; reflexivity).
  rewrite Hc. repeat split.
Qed.

Lemma receive_loop_run rt ws conns events :
  let s := Routes.receive_loop rt ws conns events in
  Routes.sent s =
    flat_map (fun f => Routes.delivered (Routes.answer rt f)) (frames_read rt events) /\
  if disconnected rt events
  then Routes.state s = Routes.Closed /\
       ConnectionManager.disconnect ws conns = Ok (Routes.manager s)
  else Routes.manager s = conns /\
       (Routes.state s = Routes.Awaiting \/
        exists e, Routes.state s = Routes.Failed e /\ is_disconnect e = false).
Proof.
  cbv zeta.
  induction events as [|[f| |e] rest IH];
    cbn [Routes.receive_loop frames_read disconnected flat_map].
  - repeat split. left. reflexivity.
  - cbn [Routes.sent Routes.state Routes.manager].
    destruct (Routes.escaped (Routes.answer rt f)) as [e|].
    + destruct (stop_run ws conns e) as (Hs & He). cbv zeta in Hs, He.
      rewrite Hs. cbn [flat_map]. split; [reflexivity|].
      destruct (is_disconnect e) eqn:E; [exact He|].
      destruct He as (Hst & Hm). split; [exact Hm|]. right. exists e. now split.
    + destruct IH as (Hs & Hrest). rewrite Hs. split; [reflexivity|exact Hrest].
  - destruct (stop_run ws conns (Exc WebSocketDisconnect "")) as (Hs & He).
    cbv zeta in Hs, He. split; [exact Hs|exact He].
  - destruct (stop_run ws conns e) as (Hs & He). cbv zeta in Hs, He.
    split; [exact Hs|].
    destruct (is_disconnect e) eqn:E; [exact He|].
    destruct He as (Hst & Hm). split; [exact Hm|]. right. exists e. now split.
Qed.

(** On a channel that takes it, every frame is answered and no exception
    escapes. *)
Lemma answer_on_reliable_channel rt f :
  (forall k r, Routes.send_response rt f k r = Ok tt) ->
  exists r, Routes.answer rt f = Routes.Handled [ r ] None.
Proof.
  intros H. unfold Routes.answer.
  assert (Hrec : forall k e, Routes.recover rt f k e =
                             Routes.Handled [ Routes.error_response e ] None).
  { intros k e. unfold Routes.recover. now rewrite H. }
  destruct (Routes.respond rt f) as [r|e]; [|rewrite Hrec; eauto].
  specialize (H 0%nat r). unfold Routes.send_response in H.
  destruct (Routes.model_dump_json rt r) as [message|e]; [|discriminate].
  cbn [bind] in H. rewrite H. eauto.
Qed.

Lemma reliable_run rt events :
  reliable rt events ->
  frames_read rt events = received events /\
  (forall f, In f (received events) ->
     exists r, Routes.answer rt f = Routes.Handled [ r ] None).
Proof.
  intros [Hsend _].
  induction events as [|[f| |e] rest IH]; cbn [frames_read received];
    try (split; [reflexivity|intros f []]).
  destruct (answer_on_reliable_channel rt f (Hsend f (or_introl eq_refl))) as (r & Hr).
  destruct IH as (IH1 & IH2).
  { intros f' Hin. apply Hsend. right. exact Hin. }
  rewrite Hr. cbn [Routes.escaped]. rewrite IH1. split; [reflexivity|].
  intros f' [<-|Hin]; [eauto|apply IH2, Hin].
Qed.

Lemma reliable_state rt events :
  reliable rt events ->
  forall ws conns e,
    Routes.state (Routes.receive_loop rt ws conns events) <> Routes.Failed e.
Proof.
  intros [Hsend Hrecv] ws conns.
  induction events as [|[f| |e] rest IH]; intros e0;
    cbn [Routes.receive_loop Routes.state].
  - discriminate.
  - destruct (answer_on_reliable_channel rt f (Hsend f (or_introl eq_refl))) as (r & Hr).
    rewrite Hr. cbn [Routes.escaped]. apply IH.
    + intros f' Hin. apply Hsend. right. exact Hin.
    + intros e' Hin. apply Hrecv. right. exact Hin.
  - destruct (stop_run ws conns (Exc WebSocketDisconnect "")) as (_ & He).
    cbv zeta in He. change (is_disconnect (Exc WebSocketDisconnect "")) with true in He.
    cbv iota in He. destruct He as (He & _). rewrite He. discriminate.
  - destruct (stop_run ws conns e) as (_ & He). cbv zeta in He.
    rewrite (Hrecv e (or_introl eq_refl)) in He. destruct He as (He & _).
    rewrite He. discriminate.
Qed.

Lemma flat_map_singletons rt frames :
  (forall f, In f frames -> exists r, Routes.answer rt f = Routes.Handled [ r ] None) ->
  List.length (flat_map (fun f => Routes.delivered (Routes.answer rt f)) frames) =
  List.length frames.
Proof.
  induction frames as [|f rest IH]; intros H; cbn [flat_map List.length];
    [reflexivity|].
  destruct (H f (or_introl eq_refl)) as (r & Hr). rewrite Hr.
  cbn [Routes.delivered app List.length]. f_equal. apply IH.
  intros f' Hin. apply H. right. exact Hin.
Qed.

Lemma flat_map_at_most_one rt frames :
  (List.length (flat_map (fun f => Routes.delivered (Routes.answer rt f)) frames)
   <= List.length frames)%nat.
Proof.
  induction frames as [|f rest IH]; cbn [flat_map List.length]; [lia|].
  rewrite length_app.
  assert (List.length (Routes.delivered (Routes.answer rt f)) <= 1)%nat.
  { destruct (answer_delivers rt f) as [H|[(e & H)|(request & r & _ & _ & _ & H)]];
      rewrite H; cbn; lia. }
  lia.
Qed.

(** X17: a run of the endpoint sends, in the order of the frames, what the
    handling of each frame it reads delivers: at most one message for a
    frame, and nothing for what comes after a disconnect or after an
    exception that leaves the loop.  The run is closed exactly when it met a
    [WebSocketDisconnect]; when another exception stops it (a binary frame
    makes [receive_text] raise [KeyError]) the websocket is still in the
    registry.  On a reliable channel the run sends exactly one message for
    every frame received before the disconnect, and no exception stops
    it. *)
Theorem session_answers_every_frame rt ws conns events :
  let s := Routes.websocket_endpoint rt ws conns events in
  Routes.sent s =
    flat_map (fun f => Routes.delivered (Routes.answer rt f)) (frames_read rt events) /\
  (List.length (Routes.sent s) <= List.length (frames_read rt events))%nat /\
  (Routes.state s = Routes.Closed <-> disconnected rt events = true) /\
  (forall e, Routes.state s = Routes.Failed e ->
     is_disconnect e = false /\
     Routes.manager s = ConnectionManager.connect ws conns) /\
  (reliable rt events ->
     List.length (Routes.sent s) = List.length (received events) /\
     Routes.state s =
       (if disconnected rt events then Routes.Closed else Routes.Awaiting)).
Proof.
  cbv zeta. unfold Routes.websocket_endpoint.
  destruct (receive_loop_run rt ws (ConnectionManager.connect ws conns) events)
    as (Hs & Hrun).
  split; [exact Hs|]. split; [rewrite Hs; apply flat_map_at_most_one|].
  split; [|split].
  - destruct (disconnected rt events).
    + destruct Hrun as (-> & _). split; reflexivity.
    + destruct Hrun as (_ & [->|(e & -> & _)]); split; discriminate.
  - intros e He. destruct (disconnected rt events).
    + destruct Hrun as (Hc & _). rewrite Hc in He. discriminate.
    + destruct Hrun as (Hm & [Ha|(e' & Hf & Hd)]).
      * rewrite Ha in He. discriminate.
      * rewrite Hf in He. injection He as <-. split; [exact Hd|exact Hm].
  - intros Hrel. destruct (reliable_run rt events Hrel) as (Hread & Hone).
    split.
    + rewrite Hs, Hread. apply flat_map_singletons, Hone.
    + destruct (disconnected rt events).
      * apply Hrun.
      * destruct Hrun as (_ & [Ha|(e & Hf & _)]); [exact Ha|].
        exfalso. exact (reliable_state rt events Hrel _ _ _ Hf).
Qed.

Lemma session_answers_every_frame_witness :
  List.length
    (Routes.sent
       (Routes.websocket_endpoint Sample.runtime 2%nat [1%nat]
          [ Routes.Text Sample.garbled_frame; Routes.Text Sample.initialize_frame;
            Routes.Disconnect; Routes.Text Sample.initialize_frame ])) = 2%nat.
Proof.
  refine (proj1 (proj2 (proj2 (proj2 (proj2
    (session_answers_every_frame Sample.runtime 2%nat [1%nat]
       [ Routes.Text Sample.garbled_frame; Routes.Text Sample.initialize_frame;
         Routes.Disconnect; Routes.Text Sample.initialize_frame ])))) _)).
  split.
  - intros f [H|[H|[H|[H|[]]]]] k r; try discriminate;
      injection H as <-; reflexivity.
  - intros e [H|[H|[H|[H|[]]]]]; discriminate.
Defined.

(** X18: the endpoint registers its websocket for as long as the session is open:
    for a websocket that was not registered before, the registry holds it
    while frames are awaited, and is back to what it was once the disconnect
    was seen. *)
Theorem session_registers_while_open rt ws conns events :
  ConnectionManager.contains ws conns = false ->
  Routes.manager (Routes.websocket_endpoint rt ws conns events) =
    if disconnected rt events then conns else ConnectionManager.connect ws conns.
Proof.
  intros H. unfold Routes.websocket_endpoint.
  destruct (receive_loop_run rt ws (ConnectionManager.connect ws conns) events)
    as (_ & Hrun).
  destruct (disconnected rt events); [|apply Hrun].
  destruct Hrun as (_ & Hm).
  unfold ConnectionManager.disconnect, ConnectionManager.connect in Hm.
  rewrite contains_last, (list_remove_last _ _ H) in Hm.
  injection Hm as Hm. symmetry. exact Hm.
Qed.

Lemma session_registers_while_open_witness :
  Routes.manager
    (Routes.websocket_endpoint Sample.runtime 2%nat [1%nat]
       [ Routes.Text Sample.initialize_frame; Routes.Disconnect;
         Routes.Text Sample.garbled_frame ]) = [1%nat].
Proof.
  apply (session_registers_while_open Sample.runtime 2%nat [1%nat]
           [ Routes.Text Sample.initialize_frame; Routes.Disconnect;
             Routes.Text Sample.garbled_frame ]).
  reflexivity.
Defined.
